(** * DuinoBus: the SLIP-style packet parser and encoder of [Packet.cpp]

    A shallow embedding of [packet::Packet] (src/src/Packet.h and
    src/src/Packet.cpp) together with the two drivers of the test suite
    (src/tests/PacketDecodeTest.cpp, src/tests/PacketEncodeTest.cpp), of
    [bus::IBus] (src/src/Bus.h, src/src/Bus.cpp) over the abstract port of
    src/src/Port.h, and the properties of the decoder and encoder state
    machines.

    Conventions of the embedding:
    - [uint8_t] and [size_t] values are integers of [Z]; the wrap-around of
      [size_t] arithmetic (64 bits) and the truncation to [uint8_t] are
      written out with [size_t] and [uint8_t] below;
    - the caller-provided storage [m_data] is a [list Z]; every read and every
      write through the pointer is bounds-checked against that list, and an
      access outside of it is the outcome [OutOfBounds];
    - a failed [assert] is the outcome [AssertFail];
    - the encode loop of the tests runs on fuel; [OutOfFuel] is the outcome
      of a loop that was cut short, and the lemmas give the fuel that is
      enough;
    - [DumpMem] and [Log::error] only print, they are left out. *)

From Stdlib Require Import ZArith Lia Bool.
From stdpp Require Import base tactics option list.

Local Open Scope Z_scope.

(** ** Outcomes of a member function *)

Inductive Run (A : Type) : Type :=
  | Ret (a : A)      (* normal return *)
  | AssertFail       (* an [assert] failed: the program aborts *)
  | OutOfBounds      (* an access outside the storage: undefined behaviour *)
  | OutOfFuel.       (* a driver loop was cut by the fuel of the model *)
Arguments Ret {A} a.
Arguments AssertFail {A}.
Arguments OutOfBounds {A}.
Arguments OutOfFuel {A}.

Definition bind {A B : Type} (m : Run A) (k : A -> Run B) : Run B :=
  match m with
  | Ret a => k a
  | AssertFail => AssertFail
  | OutOfBounds => OutOfBounds
  | OutOfFuel => OutOfFuel
  end.

#[global] Instance Run_fmap : FMap Run := fun A B f m =>
  match m with
  | Ret a => Ret (f a)
  | AssertFail => AssertFail
  | OutOfBounds => OutOfBounds
  | OutOfFuel => OutOfFuel
  end.

Notation "'do' x <- m ; k" := (bind m (fun x => k))
  (at level 10, x name, m at level 100, k at level 200).

(** ** Machine integers *)

Definition size_t (n : Z) : Z := n mod 2 ^ 64.
Definition uint8_t (n : Z) : Z := n mod 256.

(** ** Bounds-checked storage *)

Definition load (data : list Z) (i : Z) : Run Z :=
  if bool_decide (0 <= i) then
    match data !! Z.to_nat i with
    | Some v => Ret v
    | None => OutOfBounds
    end
  else OutOfBounds.

Definition store (data : list Z) (i v : Z) : Run (list Z) :=
  if bool_decide (0 <= i < Z.of_nat (length data)) then
    Ret (<[Z.to_nat i := v]> data)
  else OutOfBounds.

(** [memcpy(&dst[off], src, n)]: reads [n] bytes of [src], writes them at
    [dst[off .. off+n)]. *)
Definition memcpy (dst : list Z) (off : Z) (src : list Z) (n : Z) : Run (list Z) :=
  if bool_decide (0 <= off /\ 0 <= n /\ n <= Z.of_nat (length src)
                  /\ off + n <= Z.of_nat (length dst)) then
    Ret (take (Z.to_nat off) dst ++ take (Z.to_nat n) src
           ++ drop (Z.to_nat (off + n)) dst)
  else OutOfBounds.

(** ** CRC-8 *)

(** Modelled from the spec: [Crc8] is declared in Crc8.h, which is not among
    the sources. The spec calls it a standard CRC-8 over a byte range with a
    fixed polynomial, Packet.h names the profile
    [crcmod.predefined.mkCrcFun('crc-8')]: polynomial x^8+x^2+x+1 (0x07),
    most significant bit first, no reflection, no final xor. The call
    [Crc8(crc, len, data)] continues from [crc] over [data[0 .. len)]. *)
Definition Crc8_shift (d : Z) : Z :=
  if Z.testbit d 7 then Z.lxor (uint8_t (Z.shiftl d 1)) 0x07
  else uint8_t (Z.shiftl d 1).

Definition Crc8_byte (crc byte : Z) : Z :=
  Nat.iter 8 Crc8_shift (Z.lxor crc byte).

Definition Crc8_bytes (crc : Z) (bytes : list Z) : Z :=
  fold_left Crc8_byte bytes crc.

Definition Crc8 (crc : Z) (len : Z) (data : list Z) : Run Z :=
  if bool_decide (0 <= len <= Z.of_nat (length data)) then
    Ret (Crc8_bytes crc (take (Z.to_nat len) data))
  else OutOfBounds.

(** ** The packet *)

Module packet.

(** Framing bytes (Packet.cpp). *)
Definition END : Z := 0xC0.
Definition ESC : Z := 0xDB.
Definition ESC_END : Z := 0xDC.
Definition ESC_ESC : Z := 0xDD.

(** [enum class Error] *)
Inductive Error : Set :=
  | NONE | NOT_DONE | CRC | TIMEOUT | TOO_MUCH_DATA | TOO_SMALL | BAD_STATE.

(** [Command::PING] *)
Definition PING : Z := 0x01.

(** [enum class State]; [UNKNOWN] stands for a value outside of the
    enumeration (the tests cast 0x80 to [State]). *)
Inductive State : Set :=
  | IDLE | PACKET | ESCAPE | UNKNOWN.

Record Packet : Type := mkPacket {
  m_maxData : Z;        (* size_t const *)
  m_dataLen : Z;        (* size_t *)
  m_data : list Z;      (* uint8_t* const: the caller's storage *)
  m_state : State;
  m_encodeIdx : Z       (* size_t *)
}.

Definition set_dataLen (n : Z) (p : Packet) : Packet :=
  mkPacket (m_maxData p) n (m_data p) (m_state p) (m_encodeIdx p).
Definition set_data (d : list Z) (p : Packet) : Packet :=
  mkPacket (m_maxData p) (m_dataLen p) d (m_state p) (m_encodeIdx p).
Definition set_state (s : State) (p : Packet) : Packet :=
  mkPacket (m_maxData p) (m_dataLen p) (m_data p) s (m_encodeIdx p).
Definition set_encodeIdx (i : Z) (p : Packet) : Packet :=
  mkPacket (m_maxData p) (m_dataLen p) (m_data p) (m_state p) i.

(** [Packet::Packet(size_t maxData, void* data)]; the other members take
    their default initialisers. *)
Definition Packet_new (maxData : Z) (data : list Z) : Packet :=
  mkPacket maxData 0 data IDLE 0.

(** [Command::Type command() const] *)
Definition command (p : Packet) : Run Z := load (m_data p) 0.

(** [void command(Command::Type cmd)] *)
Definition set_command (cmd : Z) (p : Packet) : Run Packet :=
  do d <- store (m_data p) 0 cmd;
  Ret (set_data d p).

(** [uint8_t length() const { return this->m_dataLen - 2; }] *)
Definition length (p : Packet) : Z := uint8_t (size_t (m_dataLen p - 2)).

(** [uint8_t const* data() const]: the bytes from [m_data[1]] on. *)
Definition data (p : Packet) : list Z := drop 1 (m_data p).

(** [void appendData(size_t dataLen, void const* data)] *)
Definition appendData (dataLen : Z) (src : list Z) (p : Packet) : Run Packet :=
  if size_t (m_dataLen p + dataLen) <=? m_maxData p then
    if 0 <? dataLen then
      do d <- memcpy (m_data p) (m_dataLen p) src dataLen;
      Ret (set_dataLen (size_t (m_dataLen p + dataLen)) (set_data d p))
    else Ret p
  else AssertFail.

(** [void setData(size_t dataLen, void const* data)] *)
Definition setData (dataLen : Z) (src : list Z) (p : Packet) : Run Packet :=
  appendData dataLen src (set_dataLen 1 p).

(** [uint8_t crc() const] *)
Definition crc (p : Packet) : Run Z :=
  if 2 <=? m_dataLen p then load (m_data p) (size_t (m_dataLen p - 1))
  else AssertFail.

(** [this->m_data[this->m_dataLen++] = v;] *)
Definition push (v : Z) (p : Packet) : Run Packet :=
  do d <- store (m_data p) (m_dataLen p) v;
  Ret (set_dataLen (size_t (m_dataLen p + 1)) (set_data d p)).

(** [Error Packet::processByte(uint8_t byte)] *)
Definition processByte (p : Packet) (byte : Z) : Run (Error * Packet) :=
  match m_state p with
  | IDLE =>
      Ret (NOT_DONE, set_dataLen 0 (set_state PACKET p))
  | PACKET =>
      if byte =? END then
        if m_dataLen p =? 0 then Ret (NOT_DONE, p)
        else if m_dataLen p =? 1 then Ret (TOO_SMALL, p)
        else
          do rcvd_crc <- load (m_data p) (size_t (m_dataLen p - 1));
          do expected_crc <- Crc8 0 (size_t (m_dataLen p - 1)) (m_data p);
          if rcvd_crc =? expected_crc then Ret (NONE, set_state IDLE p)
          else Ret (CRC, p)
      else if m_maxData p <=? m_dataLen p then Ret (TOO_MUCH_DATA, p)
      else if byte =? ESC then Ret (NOT_DONE, set_state ESCAPE p)
      else
        do p' <- push byte p;
        Ret (NOT_DONE, p')
  | ESCAPE =>
      do p' <- (if byte =? ESC_END then push END p
                else if byte =? ESC_ESC then push ESC p
                else push byte p);
      Ret (NOT_DONE, set_state PACKET p')
  | UNKNOWN => Ret (BAD_STATE, p)
  end.

(** [void Packet::encodeStart()] *)
Definition encodeStart (p : Packet) : Packet := set_state IDLE p.

(** [Error Packet::encodeByte(uint8_t* byte)]: the argument [byte] is the
    content of [*byte] before the call, the result carries its content after
    the call. *)
Definition encodeByte (p : Packet) (byte : Z) : Run (Error * Z * Packet) :=
  match m_state p with
  | IDLE =>
      Ret (NOT_DONE, END, set_state PACKET (set_encodeIdx 0 p))
  | PACKET =>
      if m_dataLen p <=? m_encodeIdx p then
        if m_encodeIdx p =? m_dataLen p then
          do c <- Crc8 0 (m_dataLen p) (m_data p);
          Ret (NOT_DONE, c, set_encodeIdx (size_t (m_encodeIdx p + 1)) p)
        else Ret (NONE, END, set_state IDLE p)
      else
        do nextByte <- load (m_data p) (m_encodeIdx p);
        if (nextByte =? END) || (nextByte =? ESC) then
          Ret (NOT_DONE, ESC, set_state ESCAPE p)
        else
          Ret (NOT_DONE, nextByte, set_encodeIdx (size_t (m_encodeIdx p + 1)) p)
  | ESCAPE =>
      do nextByte <- load (m_data p) (m_encodeIdx p);
      let nextByte := if nextByte =? END then ESC_END else ESC_ESC in
      Ret (NOT_DONE, nextByte,
           set_state PACKET (set_encodeIdx (size_t (m_encodeIdx p + 1)) p))
  | UNKNOWN => Ret (BAD_STATE, byte, p)
  end.

End packet.

Import packet.

(** ** Drivers *)

(** [PacketDecodeTest::parseData] (tests/PacketDecodeTest.cpp): runs the bytes
    through [processByte] and stops at the first result other than
    [NOT_DONE]. *)
Fixpoint parseData (p : Packet) (bytes : list Z) : Run (Error * Packet) :=
  match bytes with
  | [] => Ret (NOT_DONE, p)
  | byte :: rest =>
      do r <- processByte p byte;
      match r with
      | (NOT_DONE, p') => parseData p' rest
      | (err, p') => Ret (err, p')
      end
  end.

(** A caller that keeps polling, as [bus::IBus::processByte] (Bus.cpp) is
    meant to be called: every byte goes through [processByte], whatever the
    previous call returned; the results are collected in order. *)
Fixpoint feed (p : Packet) (bytes : list Z) : Run (list Error * Packet) :=
  match bytes with
  | [] => Ret ([], p)
  | byte :: rest =>
      do r <- processByte p byte;
      do rs <- feed (snd r) rest;
      Ret (fst r :: fst rs, snd rs)
  end.

(** The loop of the [PacketEncodeTest] constructor
    (tests/PacketEncodeTest.cpp):
    [while (encodeByte(&nextByte) == NOT_DONE) push_back(nextByte);
     push_back(nextByte);] *)
Fixpoint encodeLoop (fuel : nat) (p : Packet) (nextByte : Z)
    (encoded : list Z) : Run (list Z * Packet) :=
  match fuel with
  | O => OutOfFuel
  | S fuel' =>
      do r <- encodeByte p nextByte;
      match r with
      | (NOT_DONE, b, p') => encodeLoop fuel' p' b (encoded ++ [b])
      | (_, b, p') => Ret (encoded ++ [b], p')
      end
  end.

(** A complete encode session on a packet: [encodeStart], then [encodeByte]
    until it returns something else than [NOT_DONE]. [nextByte] starts
    uninitialised in the source; it is written before it is read. *)
Definition encode (fuel : nat) (p : Packet) : Run (list Z * Packet) :=
  encodeLoop fuel (encodeStart p) 0 [].

(** The [PacketEncodeTest] constructor: a packet over [storage], holding
    [cmd] and the bytes of [payload], and its encoding. *)
Definition PacketEncodeTest (fuel : nat) (maxData : Z) (storage : list Z)
    (cmd : Z) (payload : list Z) : Run (list Z * Packet) :=
  do p <- set_command cmd (Packet_new maxData storage);
  do p <- setData (Z.of_nat (List.length payload)) payload p;
  encode fuel p.

(** The [PacketDecodeTest] constructor followed by [parseData]. *)
Definition PacketDecodeTest (maxData : Z) (storage : list Z)
    (bytes : list Z) : Run (Error * Packet) :=
  parseData (Packet_new maxData storage) bytes.

(** ** Frames *)

(** What [encodeByte] emits for one stored byte: the states [PACKET] and
    [ESCAPE] together give [ESC ESC_END] for [END], [ESC ESC_ESC] for [ESC],
    and the byte itself otherwise. *)
Definition escape_byte (b : Z) : list Z :=
  if b =? END then [ESC; ESC_END]
  else if b =? ESC then [ESC; ESC_ESC]
  else [b].

Definition escape (bytes : list Z) : list Z := flat_map escape_byte bytes.

(** The frame [encodeByte] produces for a packet holding [content]
    (command and payload): the CRC-8 is emitted as computed. *)
Definition frame (content : list Z) : list Z :=
  [END] ++ escape content ++ [Crc8_bytes 0 content; END].

(** The wire format in the words of the spec:
    [END [command][payload][crc8] END], with [END] and [ESC] inside
    [[command][payload][crc8]] replaced by their escape sequences. *)
Definition spec_frame (content : list Z) : list Z :=
  [END] ++ escape (content ++ [Crc8_bytes 0 content]) ++ [END].

(** ** The bus *)

Module bus.

(** [class IPort] (Port.h), the abstract port. [readByte] gives the byte it
    stored through its argument when it returns [true], and nothing when it
    returns [false]; both reading and writing may change the port. *)
Class IPort (Port : Type) : Type := {
  isDataAvailable : Port -> bool;
  readByte : Port -> option Z * Port;
  isSpaceAvailable : Port -> bool;
  writeByte : Z -> Port -> Port
}.

(** [class IBus] (Bus.h): the port and the packet being received. *)
Record IBus (Port : Type) : Type := mkIBus {
  m_port : Port;
  m_rcvPacket : Packet
}.
Arguments mkIBus {Port} _ _.
Arguments m_port {Port} _.
Arguments m_rcvPacket {Port} _.

(** [packet::Error bus::IBus::processByte()] (Bus.cpp) *)
Definition processByte {Port : Type} `{IPort Port} (b : IBus Port)
    : Run (Error * IBus Port) :=
  match readByte (m_port b) with
  | (None, port) => Ret (NOT_DONE, mkIBus port (m_rcvPacket b))
  | (Some byte, port) =>
      do r <- packet.processByte (m_rcvPacket b) byte;
      Ret (fst r, mkIBus port (snd r))
  end.



End bus.

(** A port for running the bus on examples: reading takes the bytes of
    [incoming] one by one, writing appends to [outgoing]. *)
Record Pipe : Type := mkPipe {
  incoming : list Z;
  outgoing : list Z
}.

#[global] Instance Pipe_port : bus.IPort Pipe := {|
  bus.isDataAvailable p := match incoming p with [] => false | _ => true end;
  bus.readByte p :=
    match incoming p with
    | [] => (None, p)
    | b :: rest => (Some b, mkPipe rest (outgoing p))
    end;
  bus.isSpaceAvailable _ := true;
  bus.writeByte b p := mkPipe (incoming p) (outgoing p ++ [b])
|}.

(** A caller that polls the bus [n] times, collecting what
    [IBus::processByte] returns. *)
Fixpoint poll {Port : Type} `{bus.IPort Port} (n : nat) (b : bus.IBus Port)
    : Run (list Error * bus.IBus Port) :=
  match n with
  | O => Ret ([], b)
  | S n' =>
      do r <- bus.processByte b;
      do rs <- poll n' (snd r);
      Ret (fst r :: fst rs, snd rs)
  end.

(** ** Well-formed packets *)

(** The constructor's contract: [data] points to [maxData] bytes. The
    decoder keeps the length within the storage, and only waits for the
    second byte of an escape pair when there is room for it. *)
Definition Inv (p : Packet) : Prop :=
  Z.of_nat (List.length (m_data p)) = m_maxData p
  /\ 0 <= m_dataLen p <= m_maxData p
  /\ (m_state p = ESCAPE -> m_dataLen p < m_maxData p).

(** ** The storage of the tests *)

(** [uint8_t m_packetData[16]] of the test classes; uninitialised in the
    source, zeros here. *)
Definition m_packetData : list Z := replicate 16 0.

(** * Basic facts *)

Lemma size_t_le (n : Z) : 0 <= n -> 0 <= size_t n <= n.
Proof.
  intros Hn. unfold size_t. split.
  - apply Z.mod_pos_bound. lia.
  - apply Z.mod_le; lia.
Qed.

Lemma size_t_small (n : Z) : 0 <= n < 2 ^ 64 -> size_t n = n.
Proof. intros Hn. unfold size_t. apply Z.mod_small. exact Hn. Qed.

Lemma load_in (d : list Z) (i : Z) :
  0 <= i < Z.of_nat (List.length d) ->
  exists v, d !! Z.to_nat i = Some v /\ load d i = Ret v.
Proof.
  intros Hi. destruct (lookup_lt_is_Some_2 d (Z.to_nat i)) as [v Hv]; [lia|].
  exists v. split; [exact Hv|]. unfold load.
  rewrite bool_decide_true by lia. rewrite Hv. reflexivity.
Qed.

Lemma store_in (d : list Z) (i v : Z) :
  0 <= i < Z.of_nat (List.length d) ->
  store d i v = Ret (<[Z.to_nat i := v]> d).
Proof. intros Hi. unfold store. rewrite bool_decide_true by lia. reflexivity. Qed.

Lemma Crc8_in (c len : Z) (d : list Z) :
  0 <= len <= Z.of_nat (List.length d) ->
  Crc8 c len d = Ret (Crc8_bytes c (take (Z.to_nat len) d)).
Proof. intros Hl. unfold Crc8. rewrite bool_decide_true by lia. reflexivity. Qed.

Lemma push_in (v : Z) (p : Packet) :
  0 <= m_dataLen p < Z.of_nat (List.length (m_data p)) ->
  push v p = Ret (mkPacket (m_maxData p) (size_t (m_dataLen p + 1))
                    (<[Z.to_nat (m_dataLen p) := v]> (m_data p))
                    (m_state p) (m_encodeIdx p)).
Proof. intros Hi. unfold push. rewrite store_in by exact Hi. reflexivity. Qed.

Lemma Inv_new (maxData : Z) (storage : list Z) :
  Z.of_nat (List.length storage) = maxData -> Inv (Packet_new maxData storage).
Proof. intros H. unfold Inv; simpl. repeat split; try lia. discriminate. Qed.

(** Every call on a well-formed packet returns, without touching anything
    outside of the storage, and leaves a well-formed packet. *)
Lemma processByte_Inv (p : Packet) (byte : Z) :
  Inv p ->
  exists e p', processByte p byte = Ret (e, p') /\ Inv p'
               /\ m_maxData p' = m_maxData p.
Proof.
  intros (Hlen & Hdl & Hesc). unfold processByte.
  destruct (m_state p) eqn:Hst.
  - eexists _, _. split; [reflexivity|]. unfold Inv; simpl.
    repeat split; try lia. discriminate.
  - destruct (byte =? END).
    + destruct (m_dataLen p =? 0) eqn:H0; [eexists _, _; repeat split; eauto; try lia; congruence|].
      destruct (m_dataLen p =? 1) eqn:H1; [eexists _, _; repeat split; eauto; try lia; congruence|].
      apply Z.eqb_neq in H0, H1.
      pose proof (size_t_le (m_dataLen p - 1) ltac:(lia)) as Hs.
      destruct (load_in (m_data p) (size_t (m_dataLen p - 1)) ltac:(lia)) as (v & _ & ->).
      rewrite Crc8_in by lia. simpl.
      destruct (v =? _); eexists _, _; (split; [reflexivity|]); unfold Inv; simpl;
        repeat split; try lia; congruence.
    + destruct (m_maxData p <=? m_dataLen p) eqn:Hfull;
        [eexists _, _; repeat split; eauto; try lia; congruence|].
      apply Z.leb_gt in Hfull.
      destruct (byte =? ESC).
      * eexists _, _. split; [reflexivity|]. unfold Inv; simpl. repeat split; lia.
      * rewrite push_in by lia. simpl. eexists _, _. split; [reflexivity|].
        pose proof (size_t_le (m_dataLen p + 1) ltac:(lia)).
        unfold Inv; simpl. rewrite length_insert. rewrite Hst.
        repeat split; try lia. discriminate.
  - specialize (Hesc eq_refl).
    pose proof (size_t_le (m_dataLen p + 1) ltac:(lia)).
    destruct (byte =? ESC_END); [|destruct (byte =? ESC_ESC)];
      rewrite push_in by lia; simpl; (eexists _, _; split; [reflexivity|]);
      unfold Inv; simpl; rewrite length_insert; repeat split; try lia; discriminate.
  - eexists _, _. split; [reflexivity|]. unfold Inv. rewrite Hst.
    repeat split; try lia. discriminate.
Qed.

Lemma feed_Inv (bytes : list Z) (p : Packet) :
  Inv p ->
  exists es p', feed p bytes = Ret (es, p') /\ Inv p'
                /\ m_maxData p' = m_maxData p
                /\ List.length es = List.length bytes.
Proof.
  revert p. induction bytes as [|b bs IH]; intros p Hp.
  - exists [], p. repeat split; auto; apply Hp.
  - destruct (processByte_Inv p b Hp) as (e & p1 & Hstep & Hp1 & Hmax1).
    destruct (IH p1 Hp1) as (es & p2 & Hrest & Hp2 & Hmax2 & Hl).
    exists (e :: es), p2. simpl. rewrite Hstep. simpl. rewrite Hrest. simpl.
    repeat split; try apply Hp2; [congruence | now rewrite Hl].
Qed.

(** A call either leaves the storage alone or writes one cell, the one at
    the current length, which lies inside the storage. *)
Lemma processByte_writes (p : Packet) (byte : Z) :
  Inv p ->
  exists e p', processByte p byte = Ret (e, p')
    /\ (m_data p' = m_data p
        \/ (0 <= m_dataLen p < m_maxData p
            /\ exists v, m_data p' = <[Z.to_nat (m_dataLen p) := v]> (m_data p))).
Proof.
  intros (Hlen & Hdl & Hesc). unfold processByte.
  destruct (m_state p) eqn:Hst.
  - eexists _, _. split; [reflexivity|]. left. reflexivity.
  - destruct (byte =? END).
    + destruct (m_dataLen p =? 0) eqn:H0; [eexists _, _; split; [reflexivity|now left]|].
      destruct (m_dataLen p =? 1) eqn:H1; [eexists _, _; split; [reflexivity|now left]|].
      apply Z.eqb_neq in H0, H1.
      pose proof (size_t_le (m_dataLen p - 1) ltac:(lia)) as Hs.
      destruct (load_in (m_data p) (size_t (m_dataLen p - 1)) ltac:(lia)) as (v & _ & ->).
      rewrite Crc8_in by lia. simpl.
      destruct (v =? _); eexists _, _; (split; [reflexivity|now left]).
    + destruct (m_maxData p <=? m_dataLen p) eqn:Hfull;
        [eexists _, _; split; [reflexivity|now left]|].
      apply Z.leb_gt in Hfull.
      destruct (byte =? ESC); [eexists _, _; split; [reflexivity|now left]|].
      rewrite push_in by lia. simpl. eexists _, _. split; [reflexivity|].
      right. simpl. split; [lia|]. eexists. reflexivity.
  - specialize (Hesc eq_refl).
    destruct (byte =? ESC_END); [|destruct (byte =? ESC_ESC)];
      rewrite push_in by lia; simpl; (eexists _, _; split; [reflexivity|]);
      right; simpl; (split; [lia|]); eexists; reflexivity.
  - eexists _, _. split; [reflexivity|now left].
Qed.

Lemma processByte_full (p : Packet) (byte : Z) :
  m_state p = PACKET -> m_maxData p <= m_dataLen p -> byte <> END ->
  processByte p byte = Ret (TOO_MUCH_DATA, p).
Proof.
  intros Hst Hfull Hb. unfold processByte. rewrite Hst.
  apply Z.eqb_neq in Hb. rewrite Hb.
  apply Z.leb_le in Hfull. rewrite Hfull. reflexivity.
Qed.

(** The end of a frame of at least two bytes: the last stored byte against
    the CRC-8 of the bytes before it. *)
Lemma processByte_END (p : Packet) :
  m_state p = PACKET ->
  2 <= m_dataLen p < 2 ^ 64 ->
  m_dataLen p <= Z.of_nat (List.length (m_data p)) ->
  exists rcvd,
    m_data p !! Z.to_nat (m_dataLen p - 1) = Some rcvd
    /\ processByte p END
       = if rcvd =? Crc8_bytes 0 (take (Z.to_nat (m_dataLen p - 1)) (m_data p))
         then Ret (NONE, set_state IDLE p)
         else Ret (CRC, p).
Proof.
  intros Hst Hdl Hin.
  assert (Hs : size_t (m_dataLen p - 1) = m_dataLen p - 1)
    by (apply size_t_small; lia).
  destruct (load_in (m_data p) (m_dataLen p - 1) ltac:(lia)) as (v & Hv & Hload).
  exists v. split; [exact Hv|].
  unfold processByte. rewrite Hst, Z.eqb_refl.
  destruct (Z.eqb_spec (m_dataLen p) 0) as [|_]; [lia|].
  destruct (Z.eqb_spec (m_dataLen p) 1) as [|_]; [lia|].
  rewrite Hs, Hload, Crc8_in by lia. reflexivity.
Qed.

(** * The CRC-8 is a byte *)

Lemma lxor_uint8 (a b : Z) :
  0 <= a < 256 -> 0 <= b < 256 -> 0 <= Z.lxor a b < 256.
Proof.
  intros Ha Hb.
  assert (Hnn : 0 <= Z.lxor a b) by (apply Z.lxor_nonneg; lia).
  split; [exact Hnn|].
  destruct (Z.eq_dec (Z.lxor a b) 0) as [->|Hnz]; [lia|].
  change 256 with (2 ^ 8). apply Z.log2_lt_pow2; [lia|].
  assert (Hla : Z.log2 a < 8).
  { destruct (Z.eq_dec a 0) as [->|]; [reflexivity|].
    apply Z.log2_lt_pow2; lia. }
  assert (Hlb : Z.log2 b < 8).
  { destruct (Z.eq_dec b 0) as [->|]; [reflexivity|].
    apply Z.log2_lt_pow2; lia. }
  pose proof (Z.log2_lxor a b ltac:(lia) ltac:(lia)). lia.
Qed.

Lemma Crc8_shift_uint8 (d : Z) : 0 <= Crc8_shift d < 256.
Proof.
  unfold Crc8_shift, uint8_t.
  pose proof (Z.mod_pos_bound (Z.shiftl d 1) 256 ltac:(lia)).
  destruct (Z.testbit d 7); [apply lxor_uint8; lia | lia].
Qed.

Lemma Crc8_byte_uint8 (crc byte : Z) : 0 <= Crc8_byte crc byte < 256.
Proof. unfold Crc8_byte. cbn [Nat.iter]. apply Crc8_shift_uint8. Qed.

Lemma Crc8_bytes_uint8 (bytes : list Z) :
  forall crc, 0 <= crc < 256 -> 0 <= Crc8_bytes crc bytes < 256.
Proof.
  unfold Crc8_bytes. induction bytes as [|b bs IH]; intros crc Hc; [exact Hc|].
  cbn [fold_left]. apply IH. apply Crc8_byte_uint8.
Qed.

(** * The test suite *)

(** The tests of the repository, run on the embedding; the storage of the
    tests is uninitialised, here it starts as zeros. *)
Module Tests.

(** tests/PacketDecodeTest.cpp *)

Example EmptyPacketTest :
  fst <$> PacketDecodeTest 16 m_packetData [0xc0; 0xc0] = Ret NOT_DONE.
Proof. vm_compute. reflexivity. Qed.

Example NoDataTest :
  exists p, PacketDecodeTest 16 m_packetData [0xc0; 0x01; 0x07; 0xc0] = Ret (NONE, p)
            /\ command p = Ret PING.
Proof.
  eexists. split; [vm_compute; reflexivity|]. vm_compute. reflexivity.
Qed.

Example CrcErrorTest :
  fst <$> PacketDecodeTest 16 m_packetData [0xc0; 0x01; 0x08; 0xc0] = Ret CRC.
Proof. vm_compute. reflexivity. Qed.

Example TooSmallTest :
  fst <$> PacketDecodeTest 16 m_packetData [0xc0; 0x01; 0xc0] = Ret TOO_SMALL.
Proof. vm_compute. reflexivity. Qed.

Example OneByteDataTest :
  exists p, PacketDecodeTest 16 m_packetData [0xc0; 0x01; 0x02; 0x1b; 0xc0]
            = Ret (NONE, p)
            /\ command p = Ret PING /\ packet.length p = 1
            /\ data p !! 0%nat = Some 0x02 /\ crc p = Ret 0x1b.
Proof.
  eexists. split; [vm_compute; reflexivity|]. vm_compute. tauto.
Qed.

Example TwoBytesDataTest :
  exists p, PacketDecodeTest 16 m_packetData [0xc0; 0x01; 0x02; 0x03; 0x48; 0xc0]
            = Ret (NONE, p)
            /\ command p = Ret PING /\ packet.length p = 2
            /\ data p !! 0%nat = Some 0x02 /\ data p !! 1%nat = Some 0x03
            /\ crc p = Ret 0x48.
Proof.
  eexists. split; [vm_compute; reflexivity|]. vm_compute. tauto.
Qed.

Example EscapeEndTest :
  exists p, PacketDecodeTest 16 m_packetData
              [0xc0; 0xdb; 0xdc; 0x02; 0x03; 0xae; 0xc0] = Ret (NONE, p)
            /\ command p = Ret 0xc0 /\ packet.length p = 2
            /\ data p !! 0%nat = Some 0x02 /\ data p !! 1%nat = Some 0x03
            /\ crc p = Ret 0xae.
Proof.
  eexists. split; [vm_compute; reflexivity|]. vm_compute. tauto.
Qed.

Example EscapeEscTest :
  exists p, PacketDecodeTest 16 m_packetData
              [0xc0; 0xdb; 0xdd; 0x02; 0x03; 0xe0; 0xc0] = Ret (NONE, p)
            /\ command p = Ret 0xdb /\ packet.length p = 2
            /\ data p !! 0%nat = Some 0x02 /\ data p !! 1%nat = Some 0x03
            /\ crc p = Ret 0xe0.
Proof.
  eexists. split; [vm_compute; reflexivity|]. vm_compute. tauto.
Qed.

Example EscapeOtherTest :
  exists p, PacketDecodeTest 16 m_packetData
              [0xc0; 0xdb; 0x01; 0x02; 0x03; 0x48; 0xc0] = Ret (NONE, p)
            /\ command p = Ret PING /\ packet.length p = 2
            /\ data p !! 0%nat = Some 0x02 /\ data p !! 1%nat = Some 0x03
            /\ crc p = Ret 0x48.
Proof.
  eexists. split; [vm_compute; reflexivity|]. vm_compute. tauto.
Qed.

Example FullDataTest :
  fst <$> PacketDecodeTest 16 m_packetData
            [0xc0; 0x00; 0x01; 0x02; 0x03; 0x04; 0x05; 0x06; 0x07; 0x08; 0x09;
             0x0a; 0x0b; 0x0c; 0x0d; 0x0e; 0x14; 0xc0] = Ret NONE.
Proof. vm_compute. reflexivity. Qed.

Example TooMuchDataTest :
  fst <$> PacketDecodeTest 16 m_packetData
            [0xc0; 0x00; 0x01; 0x02; 0x03; 0x04; 0x05; 0x06; 0x07; 0x08; 0x09;
             0x0a; 0x0b; 0x0c; 0x0d; 0x0e; 0x0f; 0xe0; 0xc0] = Ret TOO_MUCH_DATA.
Proof. vm_compute. reflexivity. Qed.

Example DecodeBadStateTest :
  fst <$> parseData (set_state UNKNOWN (Packet_new 16 m_packetData))
            [0xc0; 0x00; 0x01; 0x07; 0xc0] = Ret BAD_STATE.
Proof. vm_compute. reflexivity. Qed.

Example CrcNoDataTest : crc (Packet_new 16 m_packetData) = AssertFail.
Proof. reflexivity. Qed.

(** tests/PacketEncodeTest.cpp *)

Example NoData :
  fst <$> PacketEncodeTest 32 16 m_packetData PING []
  = Ret [0xc0; 0x01; 0x07; 0xc0].
Proof. vm_compute. reflexivity. Qed.

Example EncodeOneByteDataTest :
  fst <$> PacketEncodeTest 32 16 m_packetData PING [0x02]
  = Ret [0xc0; 0x01; 0x02; 0x1b; 0xc0].
Proof. vm_compute. reflexivity. Qed.

Example EncodeTwoBytesDataTest :
  fst <$> PacketEncodeTest 32 16 m_packetData PING [0x02; 0x03]
  = Ret [0xc0; 0x01; 0x02; 0x03; 0x48; 0xc0].
Proof. vm_compute. reflexivity. Qed.

Example EncodeEscapeEndTest :
  fst <$> PacketEncodeTest 32 16 m_packetData 0xc0 [0x02; 0x03]
  = Ret [0xc0; 0xdb; 0xdc; 0x02; 0x03; 0xae; 0xc0].
Proof. vm_compute. reflexivity. Qed.

Example EncodeEscapeEscTest :
  fst <$> PacketEncodeTest 32 16 m_packetData 0xdb [0x02; 0x03]
  = Ret [0xc0; 0xdb; 0xdd; 0x02; 0x03; 0xe0; 0xc0].
Proof. vm_compute. reflexivity. Qed.

Example EncodeBadStateTest :
  exists p, PacketEncodeTest 32 16 m_packetData PING [] = Ret p
            /\ fst <$> encodeByte (set_state UNKNOWN (encodeStart (snd p))) 0
               = Ret (BAD_STATE, 0).
Proof.
  eexists. split; [vm_compute; reflexivity|]. vm_compute. reflexivity.
Qed.

Example AppdDataFullTest :
  exists p, setData 0 [] (Packet_new 4 (replicate 4 0)) = Ret p
            /\ appendData 5 [1; 2; 3; 4; 5] p = AssertFail.
Proof.
  eexists. split; [vm_compute; reflexivity|]. vm_compute. reflexivity.
Qed.

End Tests.

(** * Terminal results and the state they leave *)

Lemma processByte_result (p p' : Packet) (byte : Z) (e : Error) :
  processByte p byte = Ret (e, p') ->
  match e with
  | NONE => m_state p = PACKET /\ byte = END /\ p' = set_state IDLE p
  | CRC =>
      m_state p = PACKET /\ byte = END /\ m_dataLen p <> 0 /\ m_dataLen p <> 1
      /\ p' = p
  | TOO_SMALL => m_state p = PACKET /\ byte = END /\ m_dataLen p = 1 /\ p' = p
  | TOO_MUCH_DATA =>
      m_state p = PACKET /\ byte <> END /\ m_maxData p <= m_dataLen p /\ p' = p
  | BAD_STATE => m_state p = UNKNOWN /\ p' = p
  | TIMEOUT => False
  | NOT_DONE => True
  end.
Proof.
  unfold processByte, push, load, store, Crc8, bind. intros H.
  destruct (m_state p) eqn:Hst;
    repeat match type of H with
      | context [if ?c then _ else _] => destruct c eqn:?
      | context [match ?c with _ => _ end] => destruct c eqn:?
      end;
    try discriminate H; injection H as <- <-; auto;
    repeat match goal with
      | E : (_ =? _) = true |- _ => apply Z.eqb_eq in E
      | E : (_ =? _) = false |- _ => apply Z.eqb_neq in E
      | E : (_ <=? _) = true |- _ => apply Z.leb_le in E
      | E : (_ <=? _) = false |- _ => apply Z.leb_gt in E
      end;
    repeat split; auto; try lia.
Qed.

(** A session that ends with [NONE] leaves the state [IDLE]: the next call
    starts over at length 0, whatever its byte. *)
Lemma restart_after_NONE (bytes : list Z) :
  forall (p p' : Packet) (byte : Z),
    parseData p bytes = Ret (NONE, p') ->
    processByte p' byte
    = Ret (NOT_DONE,
           mkPacket (m_maxData p') 0 (m_data p') PACKET (m_encodeIdx p')).
Proof.
  induction bytes as [|b bs IH]; intros p p' byte H; [discriminate H|].
  cbn [parseData] in H.
  destruct (processByte p b) as [[e p1]| | |] eqn:Hstep; try discriminate H.
  cbn [bind] in H. destruct e; try (injection H as H; discriminate H).
  - injection H as <-.
    apply processByte_result in Hstep. destruct Hstep as (_ & _ & ->).
    reflexivity.
  - eapply IH. exact H.
Qed.

(** A session that ends with [CRC] or [TOO_SMALL] leaves the state
    [PACKET] and the bytes of the failed frame in place. *)
Lemma no_restart_after_CRC_or_TOO_SMALL (bytes : list Z) :
  forall (p p' : Packet) (e : Error),
    parseData p bytes = Ret (e, p') ->
    e = CRC \/ e = TOO_SMALL ->
    m_state p' = PACKET /\ m_dataLen p' <> 0.
Proof.
  induction bytes as [|b bs IH]; intros p p' e H He.
  - injection H as <- <-. destruct He; discriminate.
  - cbn [parseData] in H.
    destruct (processByte p b) as [[e1 p1]| | |] eqn:Hstep; try discriminate H.
    cbn [bind] in H. apply processByte_result in Hstep.
    destruct e1; try (injection H as <- <-);
      try (destruct He; discriminate); try (eapply IH; eassumption).
    + destruct Hstep as (? & ? & ? & ? & ->). split; assumption.
    + destruct Hstep as (? & ? & ? & ->). split; [assumption|lia].
Qed.

(** * The frame of an encode session *)

Lemma encodeLoop_S (fuel : nat) (p : Packet) (byte : Z) (encoded : list Z) :
  encodeLoop (S fuel) p byte encoded
  = do r <- encodeByte p byte;
    match r with
    | (NOT_DONE, b, p') => encodeLoop fuel p' b (encoded ++ [b])
    | (_, b, p') => Ret (encoded ++ [b], p')
    end.
Proof. reflexivity. Qed.

Section Encoder.

Variables (maxData dataLen : Z) (storage : list Z).
Hypothesis Hlen : 0 <= dataLen <= Z.of_nat (List.length storage).
Hypothesis Hsize : dataLen + 1 < 2 ^ 64.

Let content : list Z := take (Z.to_nat dataLen) storage.
Let at_index (st : State) (i : Z) : Packet :=
  mkPacket maxData dataLen storage st i.

Lemma encodeByte_byte (i v byte : Z) :
  0 <= i < dataLen ->
  storage !! Z.to_nat i = Some v ->
  encodeByte (at_index PACKET i) byte
  = if (v =? END) || (v =? ESC)
    then Ret (NOT_DONE, ESC, at_index ESCAPE i)
    else Ret (NOT_DONE, v, at_index PACKET (i + 1)).
Proof.
  intros Hi Hv. unfold encodeByte, at_index; cbn [m_state m_dataLen m_encodeIdx m_data].
  destruct (Z.leb_spec dataLen i) as [|_]; [lia|].
  unfold load. rewrite bool_decide_true by lia. rewrite Hv. cbn [bind].
  destruct ((v =? END) || (v =? ESC)); [reflexivity|].
  unfold set_encodeIdx; cbn. rewrite size_t_small by lia. reflexivity.
Qed.

Lemma encodeByte_second (i v byte : Z) :
  0 <= i < dataLen ->
  storage !! Z.to_nat i = Some v ->
  encodeByte (at_index ESCAPE i) byte
  = Ret (NOT_DONE, (if v =? END then ESC_END else ESC_ESC),
         at_index PACKET (i + 1)).
Proof.
  intros Hi Hv. unfold encodeByte, at_index; cbn [m_state m_dataLen m_encodeIdx m_data].
  unfold load. rewrite bool_decide_true by lia. rewrite Hv. cbn [bind].
  unfold set_encodeIdx, set_state; cbn. rewrite size_t_small by lia. reflexivity.
Qed.

Lemma encodeByte_trailer (byte : Z) :
  encodeByte (at_index PACKET dataLen) byte
  = Ret (NOT_DONE, Crc8_bytes 0 content, at_index PACKET (dataLen + 1)).
Proof.
  unfold encodeByte, at_index; cbn [m_state m_dataLen m_encodeIdx m_data].
  rewrite Z.leb_refl, Z.eqb_refl, Crc8_in by lia. cbn [bind].
  unfold set_encodeIdx; cbn. rewrite size_t_small by lia. reflexivity.
Qed.

Lemma encodeByte_close (byte : Z) :
  encodeByte (at_index PACKET (dataLen + 1)) byte
  = Ret (NONE, END, at_index IDLE (dataLen + 1)).
Proof.
  unfold encodeByte, at_index; cbn [m_state m_dataLen m_encodeIdx m_data].
  destruct (Z.leb_spec dataLen (dataLen + 1)) as [_|]; [|lia].
  destruct (Z.eqb_spec (dataLen + 1) dataLen) as [|_]; [lia|]. reflexivity.
Qed.

(** From index [i] on the loop emits the escaped rest of the content, the
    CRC-8 as computed, and the closing [END]; [2 * k + 2] rounds are enough
    for [k] remaining bytes. *)
Lemma encodeLoop_rest (k : nat) :
  forall (i byte : Z) (encoded : list Z) (fuel : nat),
    0 <= i -> i + Z.of_nat k = dataLen -> (2 * k + 2 <= fuel)%nat ->
    encodeLoop fuel (at_index PACKET i) byte encoded
    = Ret (encoded ++ escape (drop (Z.to_nat i) content)
             ++ [Crc8_bytes 0 content; END],
           at_index IDLE (dataLen + 1)).
Proof.
  induction k as [|k IH]; intros i byte encoded fuel Hi Hk Hfuel.
  - assert (i = dataLen) as -> by lia.
    destruct fuel as [|[|fuel]]; try lia.
    rewrite encodeLoop_S, encodeByte_trailer. cbn [bind].
    rewrite encodeLoop_S, encodeByte_close. cbn [bind].
    rewrite drop_ge by (subst content; rewrite length_take; lia).
    cbn [escape flat_map app]. rewrite <- app_assoc. reflexivity.
  - destruct (lookup_lt_is_Some_2 storage (Z.to_nat i)) as [v Hv]; [lia|].
    assert (Hdrop : drop (Z.to_nat i) content
                    = v :: drop (Z.to_nat (i + 1)) content).
    { replace (Z.to_nat (i + 1)) with (S (Z.to_nat i)) by lia.
      apply drop_S. subst content. rewrite lookup_take_lt by lia. exact Hv. }
    rewrite Hdrop. cbn [escape flat_map].
    fold (escape (drop (Z.to_nat (i + 1)) content)).
    destruct fuel as [|[|fuel]]; try lia.
    rewrite encodeLoop_S, (encodeByte_byte i v) by (auto; lia).
    unfold escape_byte.
    destruct (Z.eqb_spec v END) as [->|Hne1]; cbn [orb bind].
    + rewrite encodeLoop_S, (encodeByte_second i END) by (auto; lia).
      cbn [bind]. rewrite IH by lia. rewrite Z.eqb_refl.
      rewrite <- !app_assoc. reflexivity.
    + destruct (Z.eqb_spec v ESC) as [->|Hne2]; cbn [bind].
      * rewrite encodeLoop_S, (encodeByte_second i ESC) by (auto; lia).
        cbn [bind]. rewrite IH by lia.
        replace (ESC =? END) with false by reflexivity.
        rewrite <- !app_assoc. reflexivity.
      * rewrite IH by lia. rewrite <- !app_assoc. reflexivity.
Qed.

(** A complete encode session, whatever state the packet was left in:
    the opening [END], then the rest. *)
Lemma encode_frame (st : State) (i : Z) (fuel : nat) :
  (2 * Z.to_nat dataLen + 3 <= fuel)%nat ->
  encode fuel (at_index st i)
  = Ret (frame content, at_index IDLE (dataLen + 1)).
Proof.
  intros Hfuel. unfold encode. destruct fuel as [|fuel]; [lia|].
  rewrite encodeLoop_S. unfold encodeByte, encodeStart, at_index.
  cbn [m_state set_state bind].
  change (set_state PACKET (set_encodeIdx 0 _)) with (at_index PACKET 0).
  rewrite (encodeLoop_rest (Z.to_nat dataLen)) by lia.
  change (Z.to_nat 0) with 0%nat. rewrite drop_0. reflexivity.
Qed.

End Encoder.

(** * Decoding a frame *)

Lemma processByte_store (p : Packet) (b : Z) :
  m_state p = PACKET -> b <> END -> b <> ESC ->
  0 <= m_dataLen p < m_maxData p ->
  m_maxData p <= Z.of_nat (List.length (m_data p)) ->
  m_dataLen p + 1 < 2 ^ 64 ->
  processByte p b
  = Ret (NOT_DONE,
         mkPacket (m_maxData p) (m_dataLen p + 1)
           (<[Z.to_nat (m_dataLen p) := b]> (m_data p)) PACKET (m_encodeIdx p)).
Proof.
  intros Hst Hb1 Hb2 Hd Hmax Hsz. unfold processByte. rewrite Hst.
  apply Z.eqb_neq in Hb1, Hb2. rewrite Hb1, Hb2.
  destruct (Z.leb_spec (m_maxData p) (m_dataLen p)) as [|_]; [lia|].
  rewrite push_in by lia. cbn [bind]. rewrite Hst, size_t_small by lia.
  reflexivity.
Qed.

Lemma processByte_pair (p : Packet) (b : Z) :
  m_state p = PACKET -> b = END \/ b = ESC ->
  0 <= m_dataLen p < m_maxData p ->
  m_maxData p <= Z.of_nat (List.length (m_data p)) ->
  m_dataLen p + 1 < 2 ^ 64 ->
  processByte p ESC = Ret (NOT_DONE, set_state ESCAPE p)
  /\ processByte (set_state ESCAPE p) (if b =? END then ESC_END else ESC_ESC)
     = Ret (NOT_DONE,
            mkPacket (m_maxData p) (m_dataLen p + 1)
              (<[Z.to_nat (m_dataLen p) := b]> (m_data p)) PACKET
              (m_encodeIdx p)).
Proof.
  intros Hst Hb Hd Hmax Hsz. split.
  - unfold processByte. rewrite Hst.
    replace (ESC =? END) with false by reflexivity.
    destruct (Z.leb_spec (m_maxData p) (m_dataLen p)) as [|_]; [lia|].
    rewrite Z.eqb_refl. reflexivity.
  - unfold processByte. cbn [m_state set_state].
    destruct Hb as [-> | ->].
    + rewrite !Z.eqb_refl. rewrite push_in by (cbn; lia). cbn [bind].
      cbn. rewrite size_t_small by lia. reflexivity.
    + replace (ESC =? END) with false by reflexivity.
      replace (ESC_ESC =? ESC_END) with false by reflexivity.
      rewrite Z.eqb_refl. rewrite push_in by (cbn; lia). cbn [bind].
      cbn. rewrite size_t_small by lia. reflexivity.
Qed.

(** The bytes the encoder emits for one stored byte make the decoder store
    that byte. *)
Lemma parseData_escape_byte (p : Packet) (b : Z) (rest : list Z) :
  m_state p = PACKET ->
  0 <= m_dataLen p < m_maxData p ->
  m_maxData p <= Z.of_nat (List.length (m_data p)) ->
  m_dataLen p + 1 < 2 ^ 64 ->
  parseData p (escape_byte b ++ rest)
  = parseData (mkPacket (m_maxData p) (m_dataLen p + 1)
                 (<[Z.to_nat (m_dataLen p) := b]> (m_data p)) PACKET
                 (m_encodeIdx p)) rest.
Proof.
  intros Hst Hd Hmax Hsz. unfold escape_byte.
  destruct (Z.eqb_spec b END) as [HE|HnE]; [|destruct (Z.eqb_spec b ESC) as [HS|HnS]].
  - destruct (processByte_pair p b Hst (or_introl HE) Hd Hmax Hsz) as [H1 H2].
    cbn [app parseData]. rewrite H1. cbn [bind].
    subst b. rewrite Z.eqb_refl in H2. rewrite H2. reflexivity.
  - destruct (processByte_pair p b Hst (or_intror HS) Hd Hmax Hsz) as [H1 H2].
    cbn [app parseData]. rewrite H1. cbn [bind].
    subst b. replace (ESC =? END) with false in H2 by reflexivity.
    rewrite H2. reflexivity.
  - cbn [app parseData]. rewrite processByte_store by assumption. reflexivity.
Qed.

Lemma insert_at_end (d : list Z) (n : nat) (b : Z) (bs : list Z) :
  (n < List.length d)%nat ->
  take (S n) (<[n := b]> d) ++ bs ++ drop (S n + List.length bs) (<[n := b]> d)
  = take n d ++ (b :: bs) ++ drop (n + S (List.length bs)) d.
Proof.
  intros Hn.
  rewrite (take_S_r _ n b) by (apply list_lookup_insert_eq; exact Hn).
  rewrite take_insert_ge by lia. rewrite drop_insert_lt by lia.
  rewrite <- app_assoc. cbn [app].
  replace (S n + List.length bs)%nat with (n + S (List.length bs))%nat by lia.
  reflexivity.
Qed.

Lemma parseData_escape (bs : list Z) :
  forall (p : Packet) (rest : list Z),
    m_state p = PACKET ->
    0 <= m_dataLen p ->
    m_dataLen p + Z.of_nat (List.length bs) <= m_maxData p ->
    m_maxData p <= Z.of_nat (List.length (m_data p)) ->
    m_dataLen p + Z.of_nat (List.length bs) < 2 ^ 64 ->
    parseData p (escape bs ++ rest)
    = parseData
        (mkPacket (m_maxData p) (m_dataLen p + Z.of_nat (List.length bs))
           (take (Z.to_nat (m_dataLen p)) (m_data p) ++ bs
              ++ drop (Z.to_nat (m_dataLen p) + List.length bs) (m_data p))
           PACKET (m_encodeIdx p))
        rest.
Proof.
  induction bs as [|b bs IH]; intros p rest Hst Hd Hroom Hmax Hsz.
  - destruct p as [mx dl d st ix]; cbn in *. subst st.
    rewrite Z.add_0_r, Nat.add_0_r, take_drop. reflexivity.
  - cbn [escape flat_map]. fold (escape bs). rewrite <- app_assoc.
    cbn [List.length] in Hroom, Hsz.
    rewrite parseData_escape_byte by (auto; lia).
    rewrite IH; cbn [m_state m_dataLen m_maxData m_data m_encodeIdx];
      try rewrite length_insert; try lia; try reflexivity.
    f_equal. f_equal; [cbn [List.length]; lia|].
    replace (Z.to_nat (m_dataLen p + 1)) with (S (Z.to_nat (m_dataLen p))) by lia.
    apply insert_at_end. lia.
Qed.

Lemma escape_byte_plain (b : Z) : b <> END -> b <> ESC -> escape_byte b = [b].
Proof.
  intros H1 H2. unfold escape_byte.
  apply Z.eqb_neq in H1, H2. rewrite H1, H2. reflexivity.
Qed.

(** * The frame against the wire format *)

Lemma escape_app (xs ys : list Z) : escape (xs ++ ys) = escape xs ++ escape ys.
Proof. unfold escape. apply flat_map_app. Qed.

(** The frame the encoder produces is the one of the wire format exactly
    when the CRC-8 is neither [END] nor [ESC]. *)
Lemma frame_spec_frame (content : list Z) :
  frame content = spec_frame content
  <-> Crc8_bytes 0 content <> END /\ Crc8_bytes 0 content <> ESC.
Proof.
  unfold frame, spec_frame. rewrite escape_app. cbn [escape flat_map].
  rewrite app_nil_r. set (c := Crc8_bytes 0 content). split.
  - intros Heq. apply (f_equal (@List.length Z)) in Heq.
    rewrite !length_app in Heq. cbn [List.length] in Heq.
    unfold escape_byte in Heq.
    destruct (Z.eqb_spec c END) as [|HE]; [cbn [List.length] in Heq; lia|].
    destruct (Z.eqb_spec c ESC) as [|HS]; [cbn [List.length] in Heq; lia|].
    split; assumption.
  - intros [HE HS]. rewrite escape_byte_plain by assumption.
    rewrite <- !app_assoc. reflexivity.
Qed.

(** A frame whose CRC-8 is neither [END] nor [ESC] decodes to its content
    followed by the CRC-8. *)
Lemma parseData_frame (maxData : Z) (storage content : list Z) :
  Z.of_nat (List.length storage) = maxData ->
  (1 <= List.length content)%nat ->
  Z.of_nat (List.length content) + 1 <= maxData ->
  maxData < 2 ^ 64 ->
  Crc8_bytes 0 content <> END ->
  Crc8_bytes 0 content <> ESC ->
  exists pd,
    PacketDecodeTest maxData storage (frame content) = Ret (NONE, pd)
    /\ m_state pd = IDLE
    /\ m_maxData pd = maxData
    /\ m_dataLen pd = Z.of_nat (List.length content) + 1
    /\ take (S (List.length content)) (m_data pd)
       = content ++ [Crc8_bytes 0 content].
Proof.
  intros Hlen Hne Hroom Hsz HcE HcS.
  unfold PacketDecodeTest, frame. cbn [app parseData].
  set (n := List.length content) in *. set (c := Crc8_bytes 0 content) in *.
  change (processByte (Packet_new maxData storage) END)
    with (Ret (NOT_DONE, mkPacket maxData 0 storage PACKET 0)).
  cbn [bind].
  rewrite (parseData_escape content (mkPacket maxData 0 storage PACKET 0))
    by (cbn [m_state m_dataLen m_maxData m_data]; first [reflexivity | lia]).
  cbn [m_state m_dataLen m_maxData m_data m_encodeIdx].
  replace [c; END] with (escape_byte c ++ [END])
    by (rewrite escape_byte_plain; auto).
  change (Z.to_nat 0) with 0%nat. rewrite take_0. cbn [app Nat.add].
  set (d1 := content ++ drop (List.length content) storage).
  assert (Hd1 : List.length d1 = List.length storage).
  { subst d1. rewrite length_app, length_drop. fold n. lia. }
  rewrite parseData_escape_byte;
    cbn [m_state m_dataLen m_maxData m_data m_encodeIdx]; try lia; try reflexivity.
  fold n. replace (Z.to_nat (0 + Z.of_nat n)) with n by lia.
  set (p2 := mkPacket maxData (0 + Z.of_nat n + 1) (<[n := c]> d1) PACKET 0).
  assert (Htake : take n (<[n := c]> d1) = content).
  { rewrite take_insert_ge by lia. subst d1 n. apply take_app_length. }
  assert (Hlast : <[n := c]> d1 !! n = Some c)
    by (apply list_lookup_insert_eq; lia).
  destruct (processByte_END p2) as (v & Hv & Hstep);
    cbn [p2 m_state m_dataLen m_data]; try rewrite length_insert; try lia;
    try reflexivity.
  cbn [p2 m_dataLen m_data] in Hv, Hstep.
  replace (Z.to_nat (0 + Z.of_nat n + 1 - 1)) with n in Hv, Hstep by lia.
  rewrite Hlast in Hv. injection Hv as <-.
  rewrite Htake in Hstep. fold c in Hstep. rewrite Z.eqb_refl in Hstep.
  cbn [parseData]. rewrite Hstep. cbn [bind].
  eexists. split; [reflexivity|].
  cbn [p2 set_state m_state m_maxData m_dataLen m_data].
  repeat split; try lia.
  rewrite (take_S_r _ n c Hlast), Htake. reflexivity.
Qed.

(** The encoding of a command and a payload is their frame: the packet is
    set up as in the tests, in storage with room for the command and the
    payload. *)
Lemma PacketEncodeTest_frame (fuel : nat) (maxData : Z) (storage : list Z)
    (cmd : Z) (payload : list Z) :
  Z.of_nat (List.length storage) = maxData ->
  Z.of_nat (List.length payload) + 1 <= maxData ->
  maxData + 1 < 2 ^ 64 ->
  (2 * List.length payload + 5 <= fuel)%nat ->
  exists pe,
    PacketEncodeTest fuel maxData storage cmd payload
    = Ret (frame (cmd :: payload), pe).
Proof.
  intros Hlen Hroom Hsz Hfuel.
  destruct storage as [|s0 storage]; [cbn in Hlen; lia|].
  cbn [List.length] in Hlen.
  unfold PacketEncodeTest, set_command, Packet_new. cbn [m_data].
  rewrite store_in by (cbn [List.length]; lia).
  change (<[Z.to_nat 0 := cmd]> (s0 :: storage)) with (cmd :: storage).
  cbn [bind]. unfold setData, appendData, set_dataLen, set_data.
  cbn [m_maxData m_dataLen m_data m_state m_encodeIdx].
  rewrite size_t_small by lia.
  destruct (Z.leb_spec (1 + Z.of_nat (List.length payload)) maxData) as [_|]; [|lia].
  set (n := List.length payload) in *.
  assert (Hcontent : forall tl, take (Z.to_nat (1 + Z.of_nat n))
                                  (cmd :: take n payload ++ tl)
                                = cmd :: payload).
  { intros tl. replace (Z.to_nat (1 + Z.of_nat n)) with (S n) by lia.
    cbn [take]. f_equal. rewrite (take_ge payload) by (subst n; lia).
    subst n. apply take_app_length. }
  destruct (Z.ltb_spec 0 (Z.of_nat n)) as [Hpos|Hzero].
  - unfold memcpy. rewrite bool_decide_true by (cbn [List.length]; lia).
    cbn [bind]. change (take (Z.to_nat 1) (cmd :: storage)) with [cmd].
    cbn [app]. rewrite Nat2Z.id. eexists.
    rewrite encode_frame; cbn [List.length];
      try rewrite length_app, length_take, length_drop; cbn [List.length];
      try lia.
    rewrite Hcontent. reflexivity.
  - assert (n = 0%nat) as Hn by lia.
    destruct payload as [|? ?]; [|cbn in n; lia].
    cbn [bind]. eexists. rewrite encode_frame; cbn [List.length]; try lia.
    reflexivity.
Qed.

(** * Round trip, away from the reserved CRC values *)

(** Whenever the CRC-8 of command and payload is neither [END] nor [ESC],
    encoding them and decoding the frame ends with [NONE] and gives back
    the command, the payload, their number and the CRC-8. The storage of
    both packets has [maxData] bytes, with room for command, payload and
    CRC. *)
Lemma roundtrip_plain_crc (fuel : nat) (maxData : Z) (storage storage' : list Z)
    (cmd : Z) (payload : list Z) :
  Z.of_nat (List.length storage) = maxData ->
  Z.of_nat (List.length storage') = maxData ->
  Z.of_nat (List.length payload) + 2 <= maxData ->
  maxData + 1 < 2 ^ 64 ->
  (2 * List.length payload + 5 <= fuel)%nat ->
  Crc8_bytes 0 (cmd :: payload) <> END ->
  Crc8_bytes 0 (cmd :: payload) <> ESC ->
  exists encoded pe pd,
    PacketEncodeTest fuel maxData storage cmd payload = Ret (encoded, pe)
    /\ PacketDecodeTest maxData storage' encoded = Ret (NONE, pd)
    /\ command pd = Ret cmd
    /\ take (List.length payload) (data pd) = payload
    /\ m_dataLen pd = Z.of_nat (List.length payload) + 2
    /\ crc pd = Ret (Crc8_bytes 0 (cmd :: payload)).
Proof.
  intros Hlen Hlen' Hroom Hsz Hfuel HcE HcS.
  destruct (PacketEncodeTest_frame fuel maxData storage cmd payload)
    as (pe & Henc); try assumption; try lia.
  destruct (parseData_frame maxData storage' (cmd :: payload))
    as (pd & Hdec & Hst & Hmax & Hdl & Htake);
    cbn [List.length]; try assumption; try lia.
  exists (frame (cmd :: payload)), pe, pd.
  split; [exact Henc|]. split; [exact Hdec|].
  cbn [List.length] in Hdl, Htake.
  set (n := List.length payload) in *.
  destruct (m_data pd) as [|d0 ds] eqn:Hd; [discriminate Htake|].
  cbn [take app] in Htake. injection Htake as -> Htake.
  assert (Hlast : (cmd :: ds) !! S n = Some (Crc8_bytes 0 (cmd :: payload))).
  { change ((cmd :: ds) !! S n) with (ds !! n).
    rewrite <- (lookup_take_lt ds (S n) n) by lia.
    rewrite Htake. rewrite lookup_app_r by (subst n; lia).
    subst n. rewrite Nat.sub_diag. reflexivity. }
  split; [unfold command; rewrite Hd; reflexivity|].
  split.
  - unfold data. rewrite Hd. change (drop 1 (cmd :: ds)) with ds.
    replace (take n ds) with (take n (take (S n) ds))
      by (rewrite take_take; f_equal; lia).
    rewrite Htake. subst n. apply take_app_length.
  - split; [lia|].
    unfold crc. rewrite Hdl, Hd.
    destruct (Z.leb_spec 2 (Z.of_nat (S n) + 1)) as [_|]; [|lia].
    rewrite size_t_small by lia. unfold load.
    rewrite bool_decide_true by lia.
    replace (Z.to_nat (Z.of_nat (S n) + 1 - 1)) with (S n) by lia.
    rewrite Hlast. reflexivity.
Qed.

(** * Properties of the specification *)

(** C1 (round trip), at a failing input. The encoding of [PING] with
    payload [46], [C0 01 46 C0 C0], fed to a fresh decoder ends with [CRC]
    at the fourth byte, not with [NONE]: the unescaped trailer [C0] closes
    the frame after [01 46]. The encoding of [PING] with payload [43],
    [C0 01 43 DB C0], leaves the decoder at [NOT_DONE] with [01 43 C0]
    stored: the trailer [DB] opens an escape pair that swallows the closing
    [END]. *)
Theorem roundtrip_fails_on_reserved_crc :
  (exists encoded pe pd,
      PacketEncodeTest 16 16 (replicate 16 0) PING [0x46] = Ret (encoded, pe)
      /\ PacketDecodeTest 16 (replicate 16 0) encoded = Ret (CRC, pd)
      /\ m_dataLen pd = 2)
  /\ (exists encoded pe pd,
        PacketEncodeTest 16 16 (replicate 16 0) PING [0x43] = Ret (encoded, pe)
        /\ PacketDecodeTest 16 (replicate 16 0) encoded = Ret (NOT_DONE, pd)
        /\ m_state pd = PACKET
        /\ take 3 (m_data pd) = [0x01; 0x43; 0xC0]).
Proof.
  split; eexists _, _, _.
  - split; [vm_compute; reflexivity|]. split; vm_compute; reflexivity.
  - split; [vm_compute; reflexivity|]. split; [vm_compute; reflexivity|].
    split; vm_compute; reflexivity.
Qed.

(** C2 (wire-format escaping), at a failing input. The packet [PING] with
    payload [46] has CRC-8 [C0]; the encoder emits that trailer as it is,
    [C0 01 46 C0 C0], where the wire format asks for [C0 01 46 DB DC C0]:
    the fourth byte is an unescaped [END] that is no frame delimiter.
    Likewise [PING] with payload [43] has CRC-8 [DB], emitted as a lone
    [ESC]. Payload and command bytes are escaped: command [C0] with payload
    [DB] gives [C0 DB DC DB DD E2 C0]. *)
Theorem crc_trailer_not_escaped :
  Crc8_bytes 0 [PING; 0x46] = END
  /\ (exists p, PacketEncodeTest 16 16 (replicate 16 0) PING [0x46]
                = Ret ([0xC0; 0x01; 0x46; 0xC0; 0xC0], p))
  /\ spec_frame [PING; 0x46] = [0xC0; 0x01; 0x46; 0xDB; 0xDC; 0xC0]
  /\ Crc8_bytes 0 [PING; 0x43] = ESC
  /\ (exists p, PacketEncodeTest 16 16 (replicate 16 0) PING [0x43]
                = Ret ([0xC0; 0x01; 0x43; 0xDB; 0xC0], p))
  /\ spec_frame [PING; 0x43] = [0xC0; 0x01; 0x43; 0xDB; 0xDD; 0xC0]
  /\ (exists p, PacketEncodeTest 16 16 (replicate 16 0) 0xC0 [0xDB]
                = Ret ([0xC0; 0xDB; 0xDC; 0xDB; 0xDD; 0xE2; 0xC0], p)).
Proof.
  split; [vm_compute; reflexivity|].
  split; [eexists; vm_compute; reflexivity|].
  split; [vm_compute; reflexivity|].
  split; [vm_compute; reflexivity|].
  split; [eexists; vm_compute; reflexivity|].
  split; [vm_compute; reflexivity|].
  eexists; vm_compute; reflexivity.
Qed.

(** C3 (restart), at failing inputs. After [C0 01 08 C0] ended with [CRC]
    the decoder is still in state [PACKET] with two bytes stored, and the
    next byte [01] is appended as third byte; a following valid frame
    [C0 01 07 C0] is answered [CRC NOT_DONE NOT_DONE CRC]. After
    [C0 01 C0] ended with [TOO_SMALL] the next byte [02] is appended as
    second byte. After [C0 01 07 C0] ended with [NONE] the state is [IDLE]
    and the next byte starts over at length 0. *)
Theorem no_restart_after_error :
  (exists p p',
      PacketDecodeTest 16 (replicate 16 0) [0xC0; 0x01; 0x08; 0xC0] = Ret (CRC, p)
      /\ m_state p = PACKET /\ m_dataLen p = 2
      /\ processByte p 0x01 = Ret (NOT_DONE, p')
      /\ m_dataLen p' = 3
      /\ take 3 (m_data p') = [0x01; 0x08; 0x01]
      /\ exists p'', feed p [0xC0; 0x01; 0x07; 0xC0]
                     = Ret ([CRC; NOT_DONE; NOT_DONE; CRC], p''))
  /\ (exists p p',
        PacketDecodeTest 16 (replicate 16 0) [0xC0; 0x01; 0xC0]
        = Ret (TOO_SMALL, p)
        /\ m_state p = PACKET /\ m_dataLen p = 1
        /\ processByte p 0x02 = Ret (NOT_DONE, p')
        /\ m_dataLen p' = 2
        /\ take 2 (m_data p') = [0x01; 0x02])
  /\ (exists p p',
        PacketDecodeTest 16 (replicate 16 0) [0xC0; 0x01; 0x07; 0xC0]
        = Ret (NONE, p)
        /\ m_state p = IDLE
        /\ processByte p 0x01 = Ret (NOT_DONE, p')
        /\ m_dataLen p' = 0).
Proof.
  split; [|split]; eexists _, _.
  - split; [vm_compute; reflexivity|].
    do 2 (split; [reflexivity|]). split; [vm_compute; reflexivity|].
    do 2 (split; [reflexivity|]). eexists. vm_compute. reflexivity.
  - split; [vm_compute; reflexivity|].
    do 2 (split; [reflexivity|]). split; [vm_compute; reflexivity|].
    split; reflexivity.
  - split; [vm_compute; reflexivity|].
    split; [reflexivity|]. split; [vm_compute; reflexivity|]. reflexivity.
Qed.

(** C4 (capacity enforcement). Whatever bytes are fed to a packet
    constructed over [maxData] bytes of storage, every call returns (no
    access leaves the storage), the stored length stays within [maxData],
    the storage keeps its size, the next call leaves the storage alone or
    writes the single cell at the current length, which is strictly below
    [maxData], and with the length at [maxData] a byte to be appended is
    answered by [TOO_MUCH_DATA], the packet left as it is; the decoder is
    never inside an escape pair with a full buffer. *)
Theorem capacity_enforcement (maxData : Z) (storage bytes : list Z) :
  Z.of_nat (List.length storage) = maxData ->
  exists es p,
    feed (Packet_new maxData storage) bytes = Ret (es, p)
    /\ 0 <= m_dataLen p <= maxData
    /\ Z.of_nat (List.length (m_data p)) = maxData
    /\ (forall byte, exists e p',
          processByte p byte = Ret (e, p')
          /\ (m_data p' = m_data p
              \/ (0 <= m_dataLen p < maxData
                  /\ exists v,
                       m_data p' = <[Z.to_nat (m_dataLen p) := v]> (m_data p))))
    /\ (m_dataLen p = maxData -> m_state p <> ESCAPE)
    /\ (forall byte,
          m_dataLen p = maxData -> m_state p = PACKET -> byte <> END ->
          processByte p byte = Ret (TOO_MUCH_DATA, p)).
Proof.
  intros Hlen.
  destruct (feed_Inv bytes _ (Inv_new maxData storage Hlen))
    as (es & p & Hfeed & Hp & Hmax & _).
  simpl in Hmax. exists es, p. split; [exact Hfeed|].
  pose proof Hp as (Hl & Hd & He). rewrite Hmax in Hl, Hd, He.
  split; [exact Hd|]. split; [exact Hl|]. split.
  - intros byte. rewrite <- Hmax. apply processByte_writes. exact Hp.
  - split.
    + intros Hfull Hst. specialize (He Hst). lia.
    + intros byte Hfull Hst Hb. apply processByte_full; auto. lia.
Qed.

Lemma capacity_enforcement_witness :
  exists es p,
    feed (Packet_new 2 [0; 0]) [0xC0; 1; 2; 3] = Ret (es, p)
    /\ 0 <= m_dataLen p <= 2
    /\ Z.of_nat (List.length (m_data p)) = 2
    /\ (forall byte, exists e p',
          processByte p byte = Ret (e, p')
          /\ (m_data p' = m_data p
              \/ (0 <= m_dataLen p < 2
                  /\ exists v,
                       m_data p' = <[Z.to_nat (m_dataLen p) := v]> (m_data p))))
    /\ (m_dataLen p = 2 -> m_state p <> ESCAPE)
    /\ (forall byte,
          m_dataLen p = 2 -> m_state p = PACKET -> byte <> END ->
          processByte p byte = Ret (TOO_MUCH_DATA, p)).
Proof. apply (capacity_enforcement 2 [0; 0] [0xC0; 1; 2; 3]). reflexivity. Defined.

(** C5 (checksum detection). An [END] received in state [PACKET] with at
    least two bytes stored compares the last stored byte with the CRC-8 of
    the bytes before it: the call returns [NONE], the state set to [IDLE],
    exactly when they are equal, and [CRC], the packet left as it is,
    exactly when they differ. On the 16 bytes of storage of the tests,
    [C0 01 08 C0] gives [CRC] and [C0 01 07 C0] gives [NONE] with command
    0x01. *)
Theorem checksum_detection :
  (forall p : Packet,
      m_state p = PACKET ->
      2 <= m_dataLen p < 2 ^ 64 ->
      m_dataLen p <= Z.of_nat (List.length (m_data p)) ->
      exists rcvd e p',
        m_data p !! Z.to_nat (m_dataLen p - 1) = Some rcvd
        /\ processByte p END = Ret (e, p')
        /\ let expected :=
             Crc8_bytes 0 (take (Z.to_nat (m_dataLen p - 1)) (m_data p)) in
           (e = NONE <-> rcvd = expected)
           /\ (e = CRC <-> rcvd <> expected)
           /\ (e = NONE -> p' = set_state IDLE p)
           /\ (e = CRC -> p' = p))
  /\ (forall storage : list Z,
        List.length storage = 16%nat ->
        (exists p', PacketDecodeTest 16 storage [0xC0; 0x01; 0x08; 0xC0]
                    = Ret (CRC, p'))
        /\ (exists p', PacketDecodeTest 16 storage [0xC0; 0x01; 0x07; 0xC0]
                       = Ret (NONE, p')
                       /\ m_state p' = IDLE
                       /\ command p' = Ret 0x01)).
Proof.
  split.
  - intros p Hst Hdl Hin.
    destruct (processByte_END p Hst Hdl Hin) as (v & Hv & Hstep).
    destruct (Z.eqb_spec v
                (Crc8_bytes 0 (take (Z.to_nat (m_dataLen p - 1)) (m_data p))))
      as [Heq|Hne].
    + exists v, NONE, (set_state IDLE p). split; [exact Hv|]. split; [exact Hstep|].
      cbn zeta. repeat split; try (intros; congruence); try tauto.
    + exists v, CRC, p. split; [exact Hv|]. split; [exact Hstep|].
      cbn zeta. repeat split; try (intros; congruence); try tauto.
  - intros storage Hlen.
    do 17 (destruct storage as [|? storage]; try discriminate Hlen).
    split; eexists; vm_compute; eauto.
Qed.

Lemma checksum_detection_witness :
  (exists rcvd e p',
      [0x01; 0x07] !! Z.to_nat (2 - 1) = Some rcvd
      /\ processByte (mkPacket 2 2 [0x01; 0x07] PACKET 0) END = Ret (e, p')
      /\ e = NONE)
  /\ (exists p', PacketDecodeTest 16 (replicate 16 0xFF) [0xC0; 0x01; 0x08; 0xC0]
                 = Ret (CRC, p')).
Proof.
  split.
  - destruct (proj1 checksum_detection (mkPacket 2 2 [0x01; 0x07] PACKET 0))
      as (rcvd & e & p' & Hr & Hp & Hnone & _); simpl; try reflexivity; try lia.
    exists rcvd, e, p'. split; [exact Hr|]. split; [exact Hp|].
    apply Hnone. simpl in Hr. injection Hr as <-. reflexivity.
  - destruct (proj2 checksum_detection (replicate 16 0xFF) eq_refl) as [H _].
    exact H.
Defined.

(** C6 (Idle consumes the first byte). In state [IDLE] a call returns
    [NOT_DONE] for every byte, whatever its value: the state becomes
    [PACKET], the length 0, and the storage is left as it was. *)
Theorem idle_consumes_first_byte (p : Packet) (byte : Z) :
  m_state p = IDLE ->
  processByte p byte
  = Ret (NOT_DONE, mkPacket (m_maxData p) 0 (m_data p) PACKET (m_encodeIdx p)).
Proof. intros Hst. unfold processByte. rewrite Hst. reflexivity. Qed.

Lemma idle_consumes_first_byte_witness :
  m_state (Packet_new 16 (replicate 16 0)) = IDLE
  /\ processByte (Packet_new 16 (replicate 16 0)) 0x55
     = Ret (NOT_DONE, mkPacket 16 0 (replicate 16 0) PACKET 0).
Proof.
  split; [reflexivity|].
  apply (idle_consumes_first_byte (Packet_new 16 (replicate 16 0)) 0x55).
  reflexivity.
Defined.

Lemma feed_END_empty (n : nat) (p : Packet) :
  m_state p = PACKET -> m_dataLen p = 0 ->
  feed p (replicate n END) = Ret (replicate n NOT_DONE, p).
Proof.
  intros Hst Hdl. induction n as [|n IH]; [reflexivity|].
  simpl. unfold processByte. rewrite Hst, Hdl. simpl. rewrite IH. reflexivity.
Qed.

(** C7 (empty-frame tolerance). An [END] received in state [PACKET] with
    nothing stored returns [NOT_DONE] and changes nothing; so [n >= 1]
    [END] bytes fed to a fresh decoder give [NOT_DONE] at every call and
    leave the decoder in state [PACKET] with length 0. *)
Theorem empty_frame_tolerance :
  (forall p : Packet,
      m_state p = PACKET -> m_dataLen p = 0 ->
      processByte p END = Ret (NOT_DONE, p))
  /\ (forall (n : nat) (maxData : Z) (storage : list Z),
        (1 <= n)%nat ->
        feed (Packet_new maxData storage) (replicate n END)
        = Ret (replicate n NOT_DONE, mkPacket maxData 0 storage PACKET 0)).
Proof.
  split.
  - intros p Hst Hdl. unfold processByte. rewrite Hst, Hdl. reflexivity.
  - intros n maxData storage Hn. destruct n as [|n]; [lia|].
    change (replicate (S n) END) with (END :: replicate n END).
    cbn [feed]. unfold processByte at 1. cbn [m_state Packet_new bind snd fst].
    rewrite feed_END_empty by reflexivity. reflexivity.
Qed.

Lemma empty_frame_tolerance_witness :
  processByte (mkPacket 16 0 (replicate 16 0) PACKET 0) END
  = Ret (NOT_DONE, mkPacket 16 0 (replicate 16 0) PACKET 0)
  /\ feed (Packet_new 16 (replicate 16 0)) (replicate 2 END)
     = Ret (replicate 2 NOT_DONE, mkPacket 16 0 (replicate 16 0) PACKET 0).
Proof.
  split.
  - apply (proj1 empty_frame_tolerance); reflexivity.
  - apply (proj2 empty_frame_tolerance 2%nat 16 (replicate 16 0)). lia.
Defined.

(** C8 (lenient de-escaping). In state [ESCAPE], with room for one more
    byte, a call stores [END] for [ESC_END], [ESC] for [ESC_ESC] and any
    other byte as it is, at the current length; it goes back to state
    [PACKET] and returns [NOT_DONE], never an error. A decoder that was
    constructed over [maxData] bytes of storage and reached state [ESCAPE]
    always has that room. *)
Theorem lenient_deescaping :
  (forall (p : Packet) (byte : Z),
      m_state p = ESCAPE ->
      0 <= m_dataLen p < Z.of_nat (List.length (m_data p)) ->
      exists v,
        (byte = ESC_END -> v = END)
        /\ (byte = ESC_ESC -> v = ESC)
        /\ (byte <> ESC_END -> byte <> ESC_ESC -> v = byte)
        /\ processByte p byte
           = Ret (NOT_DONE,
                  mkPacket (m_maxData p) (size_t (m_dataLen p + 1))
                    (<[Z.to_nat (m_dataLen p) := v]> (m_data p))
                    PACKET (m_encodeIdx p)))
  /\ (forall (maxData : Z) (storage bytes : list Z) (es : list Error)
             (p : Packet),
        Z.of_nat (List.length storage) = maxData ->
        feed (Packet_new maxData storage) bytes = Ret (es, p) ->
        m_state p = ESCAPE ->
        0 <= m_dataLen p < Z.of_nat (List.length (m_data p))).
Proof.
  split.
  - intros p byte Hst Hroom. unfold processByte. rewrite Hst.
    destruct (Z.eqb_spec byte ESC_END) as [->|Hne1].
    + exists END. rewrite push_in by exact Hroom. simpl. rewrite Hst.
      repeat split; auto; try discriminate. intros H; contradiction.
    + destruct (Z.eqb_spec byte ESC_ESC) as [->|Hne2].
      * exists ESC. rewrite push_in by exact Hroom. simpl. rewrite Hst.
        repeat split; auto; try discriminate. intros _ H; contradiction.
      * exists byte. rewrite push_in by exact Hroom. simpl. rewrite Hst.
        repeat split; auto; intros; contradiction.
  - intros maxData storage bytes es p Hlen Hfeed Hst.
    destruct (feed_Inv bytes _ (Inv_new maxData storage Hlen))
      as (es' & p' & Hfeed' & (Hl & Hd & He) & _).
    rewrite Hfeed in Hfeed'. injection Hfeed' as <- <-.
    specialize (He Hst). lia.
Qed.

Lemma lenient_deescaping_witness :
  (exists v,
      processByte (mkPacket 4 1 [0x01; 0; 0; 0] ESCAPE 0) 0x41
      = Ret (NOT_DONE,
             mkPacket 4 (size_t (1 + 1)) (<[Z.to_nat 1 := v]> [0x01; 0; 0; 0])
               PACKET 0)
      /\ v = 0x41)
  /\ 0 <= 0 < Z.of_nat (List.length [0; 0; 0; 0]).
Proof.
  split.
  - destruct (proj1 lenient_deescaping (mkPacket 4 1 [0x01; 0; 0; 0] ESCAPE 0)
                0x41 eq_refl)
      as (v & _ & _ & Hv & Hp); [simpl; lia|].
    exists v. split; [exact Hp|]. apply Hv; discriminate.
  - apply (proj2 lenient_deescaping 4 [0; 0; 0; 0] [0xC0; 0xDB]
             [NOT_DONE; NOT_DONE] (mkPacket 4 0 [0; 0; 0; 0] ESCAPE 0));
      reflexivity.
Defined.

(** C9 (precondition of [crc()]). With at least two bytes stored, inside
    the storage, [crc()] returns the last stored byte,
    [m_data[m_dataLen - 1]]; with fewer than two it fails its assertion:
    so on a fresh packet, and after only the opening [END] went through
    the parser. *)
Theorem crc_precondition :
  (forall p : Packet,
      2 <= m_dataLen p < 2 ^ 64 ->
      m_dataLen p <= Z.of_nat (List.length (m_data p)) ->
      exists v, m_data p !! Z.to_nat (m_dataLen p - 1) = Some v
                /\ crc p = Ret v)
  /\ (forall p : Packet, m_dataLen p < 2 -> crc p = AssertFail)
  /\ (forall (maxData : Z) (storage : list Z),
        crc (Packet_new maxData storage) = AssertFail)
  /\ (forall (maxData : Z) (storage : list Z),
        exists p, PacketDecodeTest maxData storage [END] = Ret (NOT_DONE, p)
                  /\ crc p = AssertFail).
Proof.
  split; [|split; [|split]].
  - intros p Hdl Hin. unfold crc.
    destruct (Z.leb_spec 2 (m_dataLen p)) as [_|]; [|lia].
    rewrite size_t_small by lia.
    destruct (load_in (m_data p) (m_dataLen p - 1) ltac:(lia)) as (v & Hv & Hload).
    exists v. split; assumption.
  - intros p Hdl. unfold crc.
    destruct (Z.leb_spec 2 (m_dataLen p)) as [|_]; [lia|reflexivity].
  - reflexivity.
  - intros maxData storage. eexists. split; reflexivity.
Qed.

Lemma crc_precondition_witness :
  (exists v, [0x01; 0x02; 0x1B] !! Z.to_nat (3 - 1) = Some v
             /\ crc (mkPacket 3 3 [0x01; 0x02; 0x1B] IDLE 0) = Ret v)
  /\ crc (mkPacket 3 1 [0x01; 0x02; 0x1B] PACKET 0) = AssertFail.
Proof.
  split.
  - apply (proj1 crc_precondition (mkPacket 3 3 [0x01; 0x02; 0x1B] IDLE 0));
      simpl; lia.
  - apply (proj1 (proj2 crc_precondition)
             (mkPacket 3 1 [0x01; 0x02; 0x1B] PACKET 0)).
    simpl; lia.
Defined.

Lemma uint8_t_size_t (n : Z) : uint8_t (size_t n) = n mod 256.
Proof.
  unfold uint8_t, size_t.
  apply Z.mod_mod_divide. exists (2 ^ 56). reflexivity.
Qed.

(** C10 ([length()] wraps). [length()] is [m_dataLen - 2] reduced modulo
    256: it is the number of bytes between the command and the CRC exactly
    when [2 <= m_dataLen] and [m_dataLen - 2 < 256]; below 2 it wraps, to
    254 on a fresh packet, and nothing reports an error. *)
Theorem length_underflow :
  (forall p : Packet, packet.length p = (m_dataLen p - 2) mod 256)
  /\ (forall p : Packet,
        packet.length p = m_dataLen p - 2
        <-> 2 <= m_dataLen p /\ m_dataLen p - 2 < 256)
  /\ (forall p : Packet,
        0 <= m_dataLen p < 2 -> packet.length p = m_dataLen p + 254)
  /\ (forall (maxData : Z) (storage : list Z),
        packet.length (Packet_new maxData storage) = 254).
Proof.
  assert (H : forall p : Packet, packet.length p = (m_dataLen p - 2) mod 256)
    by (intros p; apply uint8_t_size_t).
  split; [exact H|]. split; [|split].
  - intros p. rewrite H.
    pose proof (Z.mod_pos_bound (m_dataLen p - 2) 256 ltac:(lia)) as Hb.
    split.
    + intros Heq. lia.
    + intros [Hlo Hhi]. apply Z.mod_small. lia.
  - intros p Hdl. rewrite H.
    replace (m_dataLen p - 2) with (m_dataLen p + 254 + (-1) * 256) by lia.
    rewrite Z.mod_add by lia. apply Z.mod_small. lia.
  - reflexivity.
Qed.

Lemma length_underflow_witness :
  packet.length (mkPacket 16 3 (replicate 16 0) IDLE 0) = 3 - 2
  /\ packet.length (mkPacket 16 1 (replicate 16 0) PACKET 0) = 1 + 254.
Proof.
  split.
  - apply (proj1 (proj2 length_underflow) (mkPacket 16 3 (replicate 16 0) IDLE 0)).
    simpl; lia.
  - apply (proj1 (proj2 (proj2 length_underflow))
             (mkPacket 16 1 (replicate 16 0) PACKET 0)).
    simpl; lia.
Defined.

(** * Further properties of the code *)

(** ** What a call leaves alone *)

Ltac by_eval :=
  lazymatch goal with
  | |- context [Crc8_bytes] => vm_compute; first [reflexivity | discriminate]
  | |- _ =>
      first [ reflexivity | cbn; lia
            | vm_compute; first [reflexivity | discriminate | lia] ]
  end.

Ltac split_ifs H :=
  repeat match type of H with
    | context [if ?c then _ else _] => destruct c eqn:?
    | context [match ?c with _ => _ end] => destruct c eqn:?
    end.

(** X1. [processByte] never changes the capacity, the encoder index or the
    size of the storage, and never returns [TIMEOUT]. *)
Theorem processByte_keeps_configuration (p p' : Packet) (byte : Z) (e : Error) :
  processByte p byte = Ret (e, p') ->
  m_maxData p' = m_maxData p
  /\ m_encodeIdx p' = m_encodeIdx p
  /\ List.length (m_data p') = List.length (m_data p)
  /\ e <> TIMEOUT.
Proof.
  unfold processByte, push, load, store, Crc8, bind. intros H.
  destruct (m_state p) eqn:Hst; split_ifs H;
    try discriminate H; injection H as <- <-;
    cbn [m_maxData m_encodeIdx m_data set_state set_dataLen set_data];
    rewrite ?length_insert; repeat split; discriminate.
Qed.

Lemma processByte_keeps_configuration_witness :
  processByte (mkPacket 4 1 [0x01; 0; 0; 0] PACKET 7) 0x02
  = Ret (NOT_DONE, mkPacket 4 2 [0x01; 0x02; 0; 0] PACKET 7)
  /\ m_maxData (mkPacket 4 2 [0x01; 0x02; 0; 0] PACKET 7) = 4
  /\ m_encodeIdx (mkPacket 4 2 [0x01; 0x02; 0; 0] PACKET 7) = 7.
Proof.
  assert (H : processByte (mkPacket 4 1 [0x01; 0; 0; 0] PACKET 7) 0x02
              = Ret (NOT_DONE, mkPacket 4 2 [0x01; 0x02; 0; 0] PACKET 7))
    by (vm_compute; reflexivity).
  split; [exact H|].
  destruct (processByte_keeps_configuration _ _ _ _ H) as (H1 & H2 & _).
  split; [exact H1 | exact H2].
Defined.

(** X2. A call that returns an error ([CRC], [TOO_SMALL], [TOO_MUCH_DATA]
    or [BAD_STATE]) leaves the packet exactly as it was, state included; so
    the same byte again gets the same answer. *)
Theorem processByte_error_changes_nothing (p p' : Packet) (byte : Z) (e : Error) :
  processByte p byte = Ret (e, p') ->
  e <> NOT_DONE -> e <> NONE ->
  p' = p /\ processByte p' byte = Ret (e, p').
Proof.
  intros H Hnd Hnone.
  assert (Hp : p' = p).
  { apply processByte_result in H.
    destruct e; try contradiction; try tauto. }
  subst p'. split; [reflexivity | exact H].
Qed.

Lemma processByte_error_changes_nothing_witness :
  processByte (mkPacket 2 2 [0x01; 0x08] PACKET 0) 0xC0
  = Ret (CRC, mkPacket 2 2 [0x01; 0x08] PACKET 0)
  /\ mkPacket 2 2 [0x01; 0x08] PACKET 0 = mkPacket 2 2 [0x01; 0x08] PACKET 0.
Proof.
  assert (H : processByte (mkPacket 2 2 [0x01; 0x08] PACKET 0) 0xC0
              = Ret (CRC, mkPacket 2 2 [0x01; 0x08] PACKET 0))
    by (vm_compute; reflexivity).
  split; [exact H|].
  apply (processByte_error_changes_nothing _ _ _ _ H); discriminate.
Defined.

(** X3. [encodeByte] only reads the packet's contents: the stored bytes, the
    length and the capacity are the same after the call, and the result is
    [NOT_DONE], [NONE] or [BAD_STATE]. *)
Theorem encodeByte_reads_only (p p' : Packet) (byte b : Z) (e : Error) :
  encodeByte p byte = Ret (e, b, p') ->
  m_data p' = m_data p
  /\ m_dataLen p' = m_dataLen p
  /\ m_maxData p' = m_maxData p
  /\ (e = NOT_DONE \/ e = NONE \/ e = BAD_STATE).
Proof.
  unfold encodeByte, load, Crc8, bind. intros H.
  destruct (m_state p) eqn:Hst; split_ifs H;
    try discriminate H; injection H as <- <- <-;
    cbn [m_maxData m_dataLen m_data set_state set_encodeIdx];
    repeat split; auto.
Qed.

Lemma encodeByte_reads_only_witness :
  encodeByte (mkPacket 4 2 [0xC0; 0x02; 0; 0] PACKET 0) 0
  = Ret (NOT_DONE, 0xDB, mkPacket 4 2 [0xC0; 0x02; 0; 0] ESCAPE 0)
  /\ m_data (mkPacket 4 2 [0xC0; 0x02; 0; 0] ESCAPE 0) = [0xC0; 0x02; 0; 0].
Proof.
  assert (H : encodeByte (mkPacket 4 2 [0xC0; 0x02; 0; 0] PACKET 0) 0
              = Ret (NOT_DONE, 0xDB, mkPacket 4 2 [0xC0; 0x02; 0; 0] ESCAPE 0))
    by (vm_compute; reflexivity).
  split; [exact H|].
  apply (encodeByte_reads_only _ _ _ _ _ H).
Defined.

(** ** The length goes back to 0 only after [NONE] *)

Lemma processByte_appends (p p' : Packet) (byte : Z) (e : Error) :
  Inv p -> m_maxData p < 2 ^ 64 -> m_state p <> IDLE ->
  processByte p byte = Ret (e, p') ->
  m_dataLen p <= m_dataLen p' <= m_dataLen p + 1
  /\ take (Z.to_nat (m_dataLen p)) (m_data p')
     = take (Z.to_nat (m_dataLen p)) (m_data p)
  /\ (e <> NONE -> m_state p' <> IDLE).
Proof.
  intros (Hlen & Hdl & Hesc) Hmax Hidle H.
  unfold processByte, push, load, store, Crc8, bind in H.
  destruct (m_state p) eqn:Hst; [contradiction | | |].
  - split_ifs H; try discriminate H; injection H as <- <-;
      cbn [m_dataLen m_data m_state set_state set_dataLen set_data];
      rewrite ?Hst;
      try (repeat split; try lia; try discriminate; congruence).
    apply Z.leb_gt in Heqb0.
    rewrite size_t_small by lia. rewrite take_insert_ge by lia.
    repeat split; try lia; discriminate.
  - specialize (Hesc eq_refl).
    split_ifs H; try discriminate H; injection H as <- <-;
      cbn [m_dataLen m_data m_state set_state set_dataLen set_data];
      rewrite size_t_small by lia; rewrite take_insert_ge by lia;
      repeat split; try lia; discriminate.
  - injection H as <- <-. rewrite Hst. repeat split; try lia; discriminate.
Qed.

(** X4. Outside of state [IDLE] the decoder only appends. As long as no call
    returns [NONE], feeding bytes to a well-formed packet never lowers the
    length and never changes a byte stored below it, and the state [IDLE]
    is not reached: after [CRC], [TOO_SMALL] or [TOO_MUCH_DATA] the bytes
    of the failed frame stay in front of whatever comes next. *)
Theorem feed_only_appends_until_NONE (bytes : list Z) :
  forall (p p' : Packet) (es : list Error),
    Inv p -> m_maxData p < 2 ^ 64 -> m_state p <> IDLE ->
    feed p bytes = Ret (es, p') ->
    ~ In NONE es ->
    m_dataLen p <= m_dataLen p'
    /\ take (Z.to_nat (m_dataLen p)) (m_data p')
       = take (Z.to_nat (m_dataLen p)) (m_data p)
    /\ m_state p' <> IDLE.
Proof.
  induction bytes as [|b bs IH]; intros p p' es Hp Hmax Hidle H Hin.
  - injection H as <- <-. repeat split; [lia | assumption].
  - cbn [feed] in H.
    destruct (processByte_Inv p b Hp) as (e & p1 & Hstep & Hp1 & Hmax1).
    rewrite Hstep in H. cbn [bind snd fst] in H.
    destruct (feed p1 bs) as [[es1 p2]| | |] eqn:Hrest; try discriminate H.
    cbn [bind snd fst] in H. injection H as <- <-.
    destruct (processByte_appends p p1 b e Hp Hmax Hidle Hstep)
      as (Hle & Htake & Hst1).
    assert (He : e <> NONE) by (intros ->; apply Hin; left; reflexivity).
    destruct (IH p1 p2 es1 Hp1 ltac:(lia) (Hst1 He) Hrest) as (Hle2 & Htake2 & Hst2).
    { intros Hin1. apply Hin. right. exact Hin1. }
    destruct Hp as (_ & Hdl & _).
    split; [lia|]. split; [|exact Hst2].
    rewrite <- Htake.
    replace (Z.to_nat (m_dataLen p))
      with (Z.to_nat (m_dataLen p) `min` Z.to_nat (m_dataLen p1))%nat by lia.
    rewrite <- !take_take. rewrite Htake2. reflexivity.
Qed.

Lemma feed_only_appends_until_NONE_witness :
  feed (mkPacket 4 2 [0x01; 0x08; 0; 0] PACKET 0) [0xC0; 0x01; 0x07; 0xC0]
  = Ret ([CRC; NOT_DONE; NOT_DONE; CRC],
         mkPacket 4 4 [0x01; 0x08; 0x01; 0x07] PACKET 0)
  /\ 2 <= 4
  /\ take (Z.to_nat 2) [0x01; 0x08; 0x01; 0x07] = take (Z.to_nat 2) [0x01; 0x08; 0; 0]
  /\ PACKET <> IDLE.
Proof.
  assert (H : feed (mkPacket 4 2 [0x01; 0x08; 0; 0] PACKET 0)
                [0xC0; 0x01; 0x07; 0xC0]
              = Ret ([CRC; NOT_DONE; NOT_DONE; CRC],
                     mkPacket 4 4 [0x01; 0x08; 0x01; 0x07] PACKET 0))
    by (vm_compute; reflexivity).
  split; [exact H|].
  apply (feed_only_appends_until_NONE _ _ _ _) in H.
  - exact H.
  - unfold Inv; cbn; repeat split; try lia; discriminate.
  - cbn; lia.
  - discriminate.
  - cbn. intros [?|[?|[?|[?|[]]]]]; discriminate.
Defined.

(** ** Filling a packet: [command], [setData], [appendData] *)

Lemma appendData_Ret (p : Packet) (src : list Z) :
  0 <= m_dataLen p ->
  m_dataLen p + Z.of_nat (List.length src) <= m_maxData p ->
  m_maxData p <= Z.of_nat (List.length (m_data p)) ->
  m_dataLen p + Z.of_nat (List.length src) < 2 ^ 64 ->
  appendData (Z.of_nat (List.length src)) src p
  = Ret (mkPacket (m_maxData p) (m_dataLen p + Z.of_nat (List.length src))
           (take (Z.to_nat (m_dataLen p)) (m_data p) ++ src
              ++ drop (Z.to_nat (m_dataLen p) + List.length src) (m_data p))
           (m_state p) (m_encodeIdx p)).
Proof.
  intros Hd Hfit Hmax Hsz. unfold appendData.
  rewrite size_t_small by lia.
  destruct (Z.leb_spec (m_dataLen p + Z.of_nat (List.length src)) (m_maxData p))
    as [_|]; [|lia].
  destruct (Z.ltb_spec 0 (Z.of_nat (List.length src))) as [Hpos|Hzero].
  - unfold memcpy. rewrite bool_decide_true by lia. cbn [bind].
    rewrite Nat2Z.id, (take_ge src) by lia.
    replace (Z.to_nat (m_dataLen p + Z.of_nat (List.length src)))
      with (Z.to_nat (m_dataLen p) + List.length src)%nat by lia.
    reflexivity.
  - destruct src as [|? ?]; [|cbn [List.length] in Hzero; lia].
    cbn [List.length app]. rewrite Z.add_0_r, Nat.add_0_r, take_drop.
    destruct p; reflexivity.
Qed.

(** X5. [appendData] fails its assertion exactly when the bytes do not fit:
    [m_dataLen + dataLen > m_maxData]. *)
Theorem appendData_asserts_iff (p : Packet) (dataLen : Z) (src : list Z) :
  0 <= m_dataLen p -> 0 <= dataLen -> m_dataLen p + dataLen < 2 ^ 64 ->
  appendData dataLen src p = AssertFail <-> m_maxData p < m_dataLen p + dataLen.
Proof.
  intros Hd Hn Hsz. unfold appendData. rewrite size_t_small by lia.
  destruct (Z.leb_spec (m_dataLen p + dataLen) (m_maxData p)) as [Hfit|Hover].
  - split; [|lia]. unfold memcpy.
    destruct (0 <? dataLen); [|discriminate].
    destruct (bool_decide _); discriminate.
  - split; [intros _; exact Hover | reflexivity].
Qed.

Lemma appendData_asserts_iff_witness :
  appendData 5 [1; 2; 3; 4; 5] (mkPacket 4 1 [0; 0; 0; 0] IDLE 0) = AssertFail.
Proof.
  apply (appendData_asserts_iff (mkPacket 4 1 [0; 0; 0; 0] IDLE 0) 5
           [1; 2; 3; 4; 5]); cbn; lia.
Defined.

(** X6. When the bytes fit, [appendData] returns with the length grown by
    their number: the bytes stored before are kept, the new bytes follow
    them in order, the rest of the storage, the state and the encoder index
    are untouched. Appending nothing changes nothing. *)
Theorem appendData_appends (p : Packet) (src : list Z) :
  0 <= m_dataLen p ->
  m_dataLen p + Z.of_nat (List.length src) <= m_maxData p ->
  m_maxData p <= Z.of_nat (List.length (m_data p)) ->
  m_dataLen p + Z.of_nat (List.length src) < 2 ^ 64 ->
  exists p',
    appendData (Z.of_nat (List.length src)) src p = Ret p'
    /\ m_dataLen p' = m_dataLen p + Z.of_nat (List.length src)
    /\ List.length (m_data p') = List.length (m_data p)
    /\ (forall i : nat, (i < Z.to_nat (m_dataLen p))%nat ->
          m_data p' !! i = m_data p !! i)
    /\ (forall i : nat, (i < List.length src)%nat ->
          m_data p' !! (Z.to_nat (m_dataLen p) + i)%nat = src !! i)
    /\ (forall i : nat, (Z.to_nat (m_dataLen p) + List.length src <= i)%nat ->
          m_data p' !! i = m_data p !! i)
    /\ m_maxData p' = m_maxData p
    /\ m_state p' = m_state p
    /\ m_encodeIdx p' = m_encodeIdx p
    /\ (src = [] -> p' = p).
Proof.
  intros Hd Hfit Hmax Hsz. eexists. split; [apply appendData_Ret; assumption|].
  cbn [m_dataLen m_data m_maxData m_state m_encodeIdx].
  set (d := Z.to_nat (m_dataLen p)). set (n := List.length src).
  assert (Hdn : (d + n <= List.length (m_data p))%nat) by (subst d n; lia).
  assert (Htk : List.length (take d (m_data p)) = d)
    by (rewrite length_take; lia).
  split; [reflexivity|]. split.
  { rewrite !length_app, Htk, length_drop. fold n. lia. }
  split.
  { intros i Hi. rewrite lookup_app_l by lia. apply lookup_take_lt. exact Hi. }
  split.
  { intros i Hi. rewrite lookup_app_r by lia. rewrite Htk.
    replace (d + i - d)%nat with i by lia. apply lookup_app_l. exact Hi. }
  split.
  { intros i Hi. rewrite lookup_app_r by lia. rewrite Htk.
    rewrite lookup_app_r by (fold n; lia). fold n.
    rewrite lookup_drop. f_equal. lia. }
  repeat split. intros ->. subst d n. cbn [List.length app].
  rewrite Z.add_0_r, Nat.add_0_r, take_drop. destruct p; reflexivity.
Qed.

Lemma appendData_appends_witness :
  exists p',
    appendData 2 [0x05; 0x06] (mkPacket 4 1 [0x01; 0; 0; 0] IDLE 0) = Ret p'
    /\ m_dataLen p' = 3.
Proof.
  destruct (appendData_appends (mkPacket 4 1 [0x01; 0; 0; 0] IDLE 0)
              [0x05; 0x06]) as (p' & H & Hl & _); cbn; try lia.
  exists p'. split; [exact H | exact Hl].
Defined.

Lemma setData_Ret (p : Packet) (src : list Z) :
  1 + Z.of_nat (List.length src) <= m_maxData p ->
  m_maxData p <= Z.of_nat (List.length (m_data p)) ->
  m_maxData p < 2 ^ 64 ->
  setData (Z.of_nat (List.length src)) src p
  = Ret (mkPacket (m_maxData p) (1 + Z.of_nat (List.length src))
           (take 1 (m_data p) ++ src ++ drop (S (List.length src)) (m_data p))
           (m_state p) (m_encodeIdx p)).
Proof.
  intros Hfit Hmax Hsz. unfold setData.
  rewrite appendData_Ret; cbn [set_dataLen m_dataLen m_maxData m_data]; try lia.
  reflexivity.
Qed.

(** X7. [setData] followed by [appendData] is [setData] with the two
    pieces of data in a row, whenever command and data fit. *)
Theorem setData_then_appendData (p : Packet) (a b : list Z) :
  1 + Z.of_nat (List.length a) + Z.of_nat (List.length b) <= m_maxData p ->
  m_maxData p <= Z.of_nat (List.length (m_data p)) ->
  m_maxData p < 2 ^ 64 ->
  (do p1 <- setData (Z.of_nat (List.length a)) a p;
   appendData (Z.of_nat (List.length b)) b p1)
  = setData (Z.of_nat (List.length (a ++ b))) (a ++ b) p.
Proof.
  intros Hfit Hmax Hsz.
  rewrite (setData_Ret p a), (setData_Ret p (a ++ b));
    rewrite ?length_app; try lia.
  cbn [bind].
  rewrite appendData_Ret;
    cbn [m_dataLen m_maxData m_data m_state m_encodeIdx];
    rewrite ?length_app, ?length_take, ?length_drop; try lia.
  f_equal. f_equal; [lia|].
  set (la := List.length a). set (lb := List.length b).
  set (d := m_data p) in *.
  assert (Hd : (S la + lb <= List.length d)%nat) by (subst la lb; lia).
  assert (H1 : List.length (take 1 d ++ a) = S la).
  { rewrite length_app, length_take. fold la. lia. }
  replace (Z.to_nat (1 + Z.of_nat la)) with (S la) by lia.
  rewrite (app_assoc (take 1 d) a (drop (S la) d)).
  rewrite take_app_length' by (symmetry; exact H1).
  rewrite drop_app_ge by lia. rewrite H1, drop_drop.
  replace (S la + (S la + lb - S la))%nat with (S (la + lb)) by lia.
  rewrite <- !app_assoc. reflexivity.
Qed.

Lemma setData_then_appendData_witness :
  (do p1 <- setData 1 [0x02] (mkPacket 4 0 [0x01; 0; 0; 0] IDLE 0);
   appendData 2 [0x03; 0x04] p1)
  = setData 3 [0x02; 0x03; 0x04] (mkPacket 4 0 [0x01; 0; 0; 0] IDLE 0).
Proof.
  apply (setData_then_appendData (mkPacket 4 0 [0x01; 0; 0; 0] IDLE 0)
           [0x02] [0x03; 0x04]); cbn; lia.
Defined.

(** X8. The command and the data can be set in either order: both orders
    give the packet whose storage starts with the command followed by the
    data, with length one more than the number of data bytes; [command()]
    then returns the command. *)
Theorem command_setData_commute (p : Packet) (cmd : Z) (src : list Z) :
  1 + Z.of_nat (List.length src) <= m_maxData p ->
  m_maxData p <= Z.of_nat (List.length (m_data p)) ->
  m_maxData p < 2 ^ 64 ->
  exists p',
    (do p1 <- set_command cmd p; setData (Z.of_nat (List.length src)) src p1)
    = Ret p'
    /\ (do p1 <- setData (Z.of_nat (List.length src)) src p; set_command cmd p1)
       = Ret p'
    /\ m_dataLen p' = 1 + Z.of_nat (List.length src)
    /\ take (S (List.length src)) (m_data p') = cmd :: src
    /\ drop (S (List.length src)) (m_data p')
       = drop (S (List.length src)) (m_data p)
    /\ command p' = Ret cmd.
Proof.
  intros Hfit Hmax Hsz.
  destruct (m_data p) as [|d0 ds] eqn:Hd; [cbn [List.length] in Hmax; lia|].
  cbn [List.length] in Hmax.
  exists (mkPacket (m_maxData p) (1 + Z.of_nat (List.length src))
            (cmd :: src ++ drop (List.length src) ds)
            (m_state p) (m_encodeIdx p)).
  split; [|split].
  - unfold set_command. rewrite Hd, store_in by (cbn [List.length]; lia).
    cbn [bind]. rewrite setData_Ret;
      cbn [set_data m_maxData m_data m_dataLen m_state m_encodeIdx];
      try rewrite length_insert; cbn [List.length]; try lia.
    reflexivity.
  - rewrite setData_Ret by (rewrite ?Hd; cbn [List.length]; lia).
    cbn [bind]. unfold set_command. rewrite Hd.
    cbn [m_data take drop app].
    rewrite store_in by (cbn [List.length]; lia). reflexivity.
  - cbn [m_dataLen m_data]. split; [reflexivity|].
    split; [cbn [take]; f_equal; apply take_app_length|].
    split; [cbn [drop]; apply drop_app_length|]. reflexivity.
Qed.

Lemma command_setData_commute_witness :
  exists p',
    (do p1 <- set_command 0x01 (Packet_new 4 [0; 0; 0; 0]);
     setData 2 [0x02; 0x03] p1) = Ret p'
    /\ command p' = Ret 0x01.
Proof.
  destruct (command_setData_commute (Packet_new 4 [0; 0; 0; 0]) 0x01
              [0x02; 0x03]) as (p' & H & _ & _ & _ & _ & Hc); cbn; try lia.
  exists p'. split; [exact H | exact Hc].
Defined.

(** X9. On a packet filled by [setData] the accessors that expect a stored
    CRC are off by one: [length()] is the number of data bytes minus one,
    modulo 256 (255 when there are none), and [crc()] returns the last data
    byte, or fails its assertion when there is no data. *)
Theorem length_and_crc_after_setData (p : Packet) (src : list Z) :
  1 + Z.of_nat (List.length src) <= m_maxData p ->
  m_maxData p <= Z.of_nat (List.length (m_data p)) ->
  m_maxData p < 2 ^ 64 ->
  exists p',
    setData (Z.of_nat (List.length src)) src p = Ret p'
    /\ packet.length p' = (Z.of_nat (List.length src) - 1) mod 256
    /\ (src = [] -> packet.length p' = 255 /\ crc p' = AssertFail)
    /\ (forall x, last src = Some x -> crc p' = Ret x).
Proof.
  intros Hfit Hmax Hsz. eexists. split; [apply setData_Ret; assumption|].
  split; [|split].
  - unfold packet.length. cbn [m_dataLen]. rewrite uint8_t_size_t.
    f_equal. lia.
  - intros ->. split; reflexivity.
  - intros x Hx. unfold crc. cbn [m_dataLen m_data].
    assert (Hn : (1 <= List.length src)%nat)
      by (destruct src; [discriminate Hx | cbn [List.length]; lia]).
    destruct (Z.leb_spec 2 (1 + Z.of_nat (List.length src))) as [_|]; [|lia].
    rewrite size_t_small by lia. unfold load.
    rewrite bool_decide_true by lia.
    replace (Z.to_nat (1 + Z.of_nat (List.length src) - 1))
      with (List.length (take 1 (m_data p)) + (List.length src - 1))%nat
      by (rewrite length_take; lia).
    rewrite lookup_app_r by lia.
    replace (_ + _ - _)%nat with (List.length src - 1)%nat by lia.
    rewrite lookup_app_l by lia.
    rewrite last_lookup in Hx.
    replace (pred (List.length src)) with (List.length src - 1)%nat in Hx by lia.
    rewrite Hx. reflexivity.
Qed.

Lemma length_and_crc_after_setData_witness :
  exists p',
    setData 2 [0x02; 0x03] (Packet_new 4 [0x01; 0; 0; 0]) = Ret p'
    /\ packet.length p' = (2 - 1) mod 256
    /\ crc p' = Ret 0x03.
Proof.
  destruct (length_and_crc_after_setData (Packet_new 4 [0x01; 0; 0; 0])
              [0x02; 0x03]) as (p' & H & Hl & _ & Hc); cbn; try lia.
  exists p'. split; [exact H|]. split; [exact Hl|]. apply Hc. reflexivity.
Defined.

(** ** Encode sessions *)

Lemma escape_no_END (bytes : list Z) : ~ In END (escape bytes).
Proof.
  induction bytes as [|b bs IH]; [intros []|].
  cbn [escape flat_map]. fold (escape bs). rewrite in_app_iff.
  intros [Hb|Hbs]; [|exact (IH Hbs)].
  unfold escape_byte in Hb.
  destruct (Z.eqb_spec b END); [cbn in Hb; intuition discriminate|].
  destruct (Z.eqb_spec b ESC); cbn in Hb;
    intuition (try discriminate; try congruence).
Qed.

Lemma escape_length (bytes : list Z) :
  (List.length bytes <= List.length (escape bytes) <= 2 * List.length bytes)%nat.
Proof.
  induction bytes as [|b bs IH]; [cbn; lia|].
  cbn [escape flat_map]. fold (escape bs). rewrite length_app.
  cbn [List.length]. unfold escape_byte.
  destruct (b =? END); [cbn [List.length]; lia|].
  destruct (b =? ESC); cbn [List.length]; lia.
Qed.

Lemma escape_ESC_pair (bytes : list Z) :
  forall i : nat,
    escape bytes !! i = Some ESC ->
    escape bytes !! S i = Some ESC_END \/ escape bytes !! S i = Some ESC_ESC.
Proof.
  induction bytes as [|b bs IH]; intros i Hi; [discriminate Hi|].
  cbn [escape flat_map] in *. fold (escape bs) in *.
  unfold escape_byte in *.
  destruct (Z.eqb_spec b END) as [|HnE]; [|destruct (Z.eqb_spec b ESC) as [|HnS]].
  - destruct i as [|[|i]]; [left; reflexivity | discriminate Hi | apply IH, Hi].
  - destruct i as [|[|i]]; [right; reflexivity | discriminate Hi | apply IH, Hi].
  - destruct i as [|i]; [cbn in Hi; congruence | apply IH, Hi].
Qed.

(** X10. An encode session on a packet whose length lies within its storage
    returns, in at most [2 * m_dataLen + 3] calls of [encodeByte] and
    whatever state and encoder index the packet was left with, the opening
    [END], the stored bytes with [END] and [ESC] escaped, the CRC-8 of the
    stored bytes as computed, and the closing [END]. The stored bytes and
    the length are as before and the state is [IDLE], so the same session
    can be run again with the same result. *)
Theorem encode_session (fuel : nat) (p : Packet) :
  0 <= m_dataLen p <= Z.of_nat (List.length (m_data p)) ->
  m_dataLen p + 1 < 2 ^ 64 ->
  (2 * Z.to_nat (m_dataLen p) + 3 <= fuel)%nat ->
  let content := take (Z.to_nat (m_dataLen p)) (m_data p) in
  let pe := mkPacket (m_maxData p) (m_dataLen p) (m_data p) IDLE
              (m_dataLen p + 1) in
  encode fuel p
  = Ret ([END] ++ escape content ++ [Crc8_bytes 0 content; END], pe)
  /\ encode fuel pe = encode fuel p.
Proof.
  intros Hlen Hsz Hfuel content pe. destruct p as [mx dl d st ix].
  cbn [m_maxData m_dataLen m_data] in *.
  split.
  - apply (encode_frame mx dl d Hlen Hsz st ix fuel Hfuel).
  - subst pe.
    rewrite (encode_frame mx dl d Hlen Hsz st ix fuel Hfuel).
    apply (encode_frame mx dl d Hlen Hsz IDLE (dl + 1) fuel Hfuel).
Qed.

Lemma encode_session_witness :
  encode 9 (mkPacket 4 3 [0xC0; 0x02; 0x03; 0] ESCAPE 2)
  = Ret ([END] ++ escape [0xC0; 0x02; 0x03]
           ++ [Crc8_bytes 0 [0xC0; 0x02; 0x03]; END],
         mkPacket 4 3 [0xC0; 0x02; 0x03; 0] IDLE 4).
Proof.
  apply (encode_session 9 (mkPacket 4 3 [0xC0; 0x02; 0x03; 0] ESCAPE 2));
    cbn; lia.
Defined.

(** X11. The bytes an encode session emits between the opening [END] and
    the CRC-8 contain no [END]; every [ESC] among them is followed by
    [ESC_END] or [ESC_ESC]; and there are at least as many of them as bytes
    stored and at most twice as many. *)
Theorem encode_session_shape (fuel : nat) (p : Packet) :
  0 <= m_dataLen p <= Z.of_nat (List.length (m_data p)) ->
  m_dataLen p + 1 < 2 ^ 64 ->
  (2 * Z.to_nat (m_dataLen p) + 3 <= fuel)%nat ->
  exists (mid : list Z) (c : Z) (pe : Packet),
    encode fuel p = Ret (END :: mid ++ [c; END], pe)
    /\ ~ In END mid
    /\ (forall i : nat, mid !! i = Some ESC ->
          mid !! S i = Some ESC_END \/ mid !! S i = Some ESC_ESC)
    /\ (Z.to_nat (m_dataLen p) <= List.length mid
        <= 2 * Z.to_nat (m_dataLen p))%nat.
Proof.
  intros Hlen Hsz Hfuel. destruct p as [mx dl d st ix].
  cbn [m_maxData m_dataLen m_data] in *.
  exists (escape (take (Z.to_nat dl) d)), (Crc8_bytes 0 (take (Z.to_nat dl) d)).
  eexists. split; [apply (encode_frame mx dl d Hlen Hsz st ix fuel Hfuel)|].
  split; [apply escape_no_END|]. split; [apply escape_ESC_pair|].
  pose proof (escape_length (take (Z.to_nat dl) d)) as Hl.
  rewrite length_take in Hl. lia.
Qed.

Lemma encode_session_shape_witness :
  exists (mid : list Z) (c : Z) (pe : Packet),
    encode 9 (mkPacket 4 3 [0xC0; 0xDB; 0x03; 0] IDLE 0)
    = Ret (END :: mid ++ [c; END], pe)
    /\ ~ In END mid.
Proof.
  destruct (encode_session_shape 9 (mkPacket 4 3 [0xC0; 0xDB; 0x03; 0] IDLE 0))
    as (mid & c & pe & H & Hno & _); cbn; try lia.
  exists mid, c, pe. split; [exact H | exact Hno].
Defined.

(** ** Decoding a stream *)

Lemma feed_app (xs ys : list Z) :
  forall p : Packet,
    feed p (xs ++ ys)
    = do r1 <- feed p xs;
      do r2 <- feed (snd r1) ys;
      Ret (fst r1 ++ fst r2, snd r2).
Proof.
  induction xs as [|x xs IH]; intros p.
  - cbn [app feed bind snd fst].
    destruct (feed p ys) as [[es p']| | |]; reflexivity.
  - cbn [app feed].
    destruct (processByte p x) as [[e p1]| | |]; try reflexivity.
    cbn [bind snd fst]. rewrite IH.
    destruct (feed p1 xs) as [[es1 p2]| | |]; try reflexivity.
    cbn [bind snd fst].
    destruct (feed p2 ys) as [[es2 p3]| | |]; reflexivity.
Qed.

Lemma feed_length (bytes : list Z) :
  forall (p p' : Packet) (es : list Error),
    feed p bytes = Ret (es, p') -> List.length es = List.length bytes.
Proof.
  induction bytes as [|b bs IH]; intros p p' es H.
  - injection H as <- <-. reflexivity.
  - cbn [feed] in H.
    destruct (processByte p b) as [[e p1]| | |]; try discriminate H.
    cbn [bind snd fst] in H.
    destruct (feed p1 bs) as [[es1 p2]| | |] eqn:Hrest; try discriminate H.
    cbn [bind snd fst] in H. injection H as <- <-.
    cbn [List.length]. f_equal. eapply IH. exact Hrest.
Qed.

(** [parseData] is [feed] up to the first result other than [NOT_DONE]. *)
Lemma parseData_of_feed (bytes : list Z) :
  forall (p p' : Packet) (k : nat) (e : Error),
    feed p bytes = Ret (replicate k NOT_DONE ++ [e], p') ->
    parseData p bytes = Ret (e, p').
Proof.
  induction bytes as [|b bs IH]; intros p p' k e H.
  - injection H as H _. destruct k; discriminate H.
  - cbn [feed] in H. cbn [parseData].
    destruct (processByte p b) as [[e1 p1]| | |]; try discriminate H.
    cbn [bind snd fst] in H |- *.
    destruct (feed p1 bs) as [[es1 p2]| | |] eqn:Hrest; try discriminate H.
    cbn [bind snd fst] in H. injection H as Hes <-.
    destruct k as [|k]; cbn [replicate app] in Hes; injection Hes as -> ->.
    + apply feed_length in Hrest as Hl.
      destruct bs; [|discriminate Hl]. injection Hrest as <-.
      destruct e; reflexivity.
    + apply (IH p1 p2 k e Hrest).
Qed.

Lemma feed_escape_byte (p : Packet) (b : Z) :
  m_state p = PACKET ->
  0 <= m_dataLen p < m_maxData p ->
  m_maxData p <= Z.of_nat (List.length (m_data p)) ->
  m_dataLen p + 1 < 2 ^ 64 ->
  feed p (escape_byte b)
  = Ret (replicate (List.length (escape_byte b)) NOT_DONE,
         mkPacket (m_maxData p) (m_dataLen p + 1)
           (<[Z.to_nat (m_dataLen p) := b]> (m_data p)) PACKET
           (m_encodeIdx p)).
Proof.
  intros Hst Hd Hmax Hsz. unfold escape_byte.
  destruct (Z.eqb_spec b END) as [HE|HnE]; [|destruct (Z.eqb_spec b ESC) as [HS|HnS]].
  - destruct (processByte_pair p b Hst (or_introl HE) Hd Hmax Hsz) as [H1 H2].
    cbn [feed]. rewrite H1. cbn [bind snd fst].
    subst b. rewrite Z.eqb_refl in H2. rewrite H2. reflexivity.
  - destruct (processByte_pair p b Hst (or_intror HS) Hd Hmax Hsz) as [H1 H2].
    cbn [feed]. rewrite H1. cbn [bind snd fst].
    subst b. replace (ESC =? END) with false in H2 by reflexivity.
    rewrite H2. reflexivity.
  - cbn [feed]. rewrite processByte_store by assumption. reflexivity.
Qed.

Lemma feed_escape (bs : list Z) :
  forall p : Packet,
    m_state p = PACKET ->
    0 <= m_dataLen p ->
    m_dataLen p + Z.of_nat (List.length bs) <= m_maxData p ->
    m_maxData p <= Z.of_nat (List.length (m_data p)) ->
    m_dataLen p + Z.of_nat (List.length bs) < 2 ^ 64 ->
    feed p (escape bs)
    = Ret (replicate (List.length (escape bs)) NOT_DONE,
           mkPacket (m_maxData p) (m_dataLen p + Z.of_nat (List.length bs))
             (take (Z.to_nat (m_dataLen p)) (m_data p) ++ bs
                ++ drop (Z.to_nat (m_dataLen p) + List.length bs) (m_data p))
             PACKET (m_encodeIdx p)).
Proof.
  induction bs as [|b bs IH]; intros p Hst Hd Hroom Hmax Hsz.
  - destruct p as [mx dl d st ix]; cbn in *. subst st.
    rewrite Z.add_0_r, Nat.add_0_r, take_drop. reflexivity.
  - cbn [escape flat_map]. fold (escape bs).
    cbn [List.length] in Hroom, Hsz.
    rewrite feed_app, feed_escape_byte by (auto; lia).
    cbn [bind snd fst].
    rewrite IH; cbn [m_state m_dataLen m_maxData m_data m_encodeIdx];
      try rewrite length_insert; try lia; try reflexivity.
    cbn [bind snd fst]. rewrite <- replicate_add, <- length_app.
    f_equal. f_equal. f_equal; [cbn [List.length]; lia|].
    replace (Z.to_nat (m_dataLen p + 1)) with (S (Z.to_nat (m_dataLen p))) by lia.
    apply insert_at_end. lia.
Qed.

(** X12. The decoder undoes the encoder's escaping. In state [PACKET], with
    room for the bytes [bs], the bytes the encoder emits for [bs] are all
    answered [NOT_DONE] and leave exactly [bs] stored after what was there,
    the rest of the storage untouched: also when [bs] holds [END] or [ESC]
    bytes. *)
Theorem decode_escaped (bs : list Z) (p : Packet) :
  m_state p = PACKET ->
  0 <= m_dataLen p ->
  m_dataLen p + Z.of_nat (List.length bs) <= m_maxData p ->
  m_maxData p <= Z.of_nat (List.length (m_data p)) ->
  m_dataLen p + Z.of_nat (List.length bs) < 2 ^ 64 ->
  let p' := mkPacket (m_maxData p) (m_dataLen p + Z.of_nat (List.length bs))
              (take (Z.to_nat (m_dataLen p)) (m_data p) ++ bs
                 ++ drop (Z.to_nat (m_dataLen p) + List.length bs) (m_data p))
              PACKET (m_encodeIdx p) in
  feed p (escape bs) = Ret (replicate (List.length (escape bs)) NOT_DONE, p')
  /\ parseData p (escape bs) = Ret (NOT_DONE, p').
Proof.
  intros Hst Hd Hroom Hmax Hsz p'. split.
  - apply feed_escape; assumption.
  - rewrite <- (app_nil_r (escape bs)).
    rewrite parseData_escape by assumption. reflexivity.
Qed.

Lemma decode_escaped_witness :
  feed (mkPacket 4 1 [0x01; 0; 0; 0] PACKET 0) (escape [0xC0; 0xDB])
  = Ret (replicate (List.length (escape [0xC0; 0xDB])) NOT_DONE,
         mkPacket 4 (1 + Z.of_nat (List.length [0xC0; 0xDB]))
           (take (Z.to_nat 1) [0x01; 0; 0; 0] ++ [0xC0; 0xDB]
              ++ drop (Z.to_nat 1 + List.length [0xC0; 0xDB]) [0x01; 0; 0; 0])
           PACKET 0).
Proof.
  apply (decode_escaped [0xC0; 0xDB] (mkPacket 4 1 [0x01; 0; 0; 0] PACKET 0));
    cbn; first [reflexivity | lia].
Defined.

Lemma replicate_cons_app {A : Type} (k : nat) (x : A) (l : list A) :
  x :: replicate k x ++ l = replicate k x ++ x :: l.
Proof.
  induction k as [|k IH]; [reflexivity|].
  cbn [replicate app]. f_equal. exact IH.
Qed.

Lemma insert_after (content d : list Z) (c : Z) :
  (List.length content < List.length d)%nat ->
  <[List.length content := c]> (content ++ drop (List.length content) d)
  = content ++ c :: drop (S (List.length content)) d.
Proof.
  intros Hn.
  destruct (lookup_lt_is_Some_2 d (List.length content) Hn) as [y Hy].
  rewrite insert_app_r_alt by lia. rewrite Nat.sub_diag.
  rewrite (drop_S d y (List.length content) Hy). reflexivity.
Qed.

(** A frame whose CRC-8 is neither [END] nor [ESC], fed to a packet in state
    [IDLE] with room for content and CRC: [NOT_DONE] at every byte but the
    last, [NONE] at the closing [END]. *)
Lemma feed_frame (p : Packet) (content : list Z) :
  m_state p = IDLE ->
  (1 <= List.length content)%nat ->
  Z.of_nat (List.length content) + 1 <= m_maxData p ->
  m_maxData p <= Z.of_nat (List.length (m_data p)) ->
  m_maxData p < 2 ^ 64 ->
  Crc8_bytes 0 content <> END ->
  Crc8_bytes 0 content <> ESC ->
  feed p (frame content)
  = Ret (replicate (List.length (escape content) + 2) NOT_DONE ++ [NONE],
         mkPacket (m_maxData p) (Z.of_nat (List.length content) + 1)
           (content ++ Crc8_bytes 0 content
              :: drop (S (List.length content)) (m_data p))
           IDLE (m_encodeIdx p)).
Proof.
  intros Hst Hne Hroom Hmax Hsz HcE HcS.
  unfold frame. set (n := List.length content). set (c := Crc8_bytes 0 content).
  cbn [app feed].
  assert (H0 : processByte p END
               = Ret (NOT_DONE, mkPacket (m_maxData p) 0 (m_data p) PACKET
                                  (m_encodeIdx p)))
    by (unfold processByte; rewrite Hst; reflexivity).
  rewrite H0. cbn [bind snd fst].
  rewrite feed_app.
  rewrite feed_escape
    by (cbn [m_state m_dataLen m_maxData m_data]; first [reflexivity | lia]).
  cbn [bind snd fst m_state m_dataLen m_maxData m_data m_encodeIdx].
  change (Z.to_nat 0) with 0%nat. rewrite take_0. cbn [app Nat.add].
  fold n.
  replace [c; END] with (escape_byte c ++ [END])
    by (rewrite escape_byte_plain; auto).
  rewrite feed_app.
  rewrite feed_escape_byte;
    cbn [m_state m_dataLen m_maxData m_data m_encodeIdx];
    rewrite ?length_app, ?length_drop; fold n; try lia; try reflexivity.
  cbn [bind snd fst]. rewrite (escape_byte_plain c HcE HcS).
  replace (Z.to_nat (0 + Z.of_nat n)) with n by lia.
  subst n. rewrite insert_after by lia. set (n := List.length content).
  set (d2 := content ++ c :: drop (S n) (m_data p)).
  set (p2 := mkPacket (m_maxData p) (0 + Z.of_nat n + 1) d2 PACKET
               (m_encodeIdx p)).
  assert (Hd2 : List.length d2 = List.length (m_data p)).
  { subst d2. rewrite length_app. cbn [List.length]. rewrite length_drop.
    fold n. lia. }
  destruct (processByte_END p2) as (v & Hv & Hstep);
    cbn [p2 m_state m_dataLen m_data]; try lia; try reflexivity.
  cbn [p2 m_dataLen m_data] in Hv, Hstep.
  replace (Z.to_nat (0 + Z.of_nat n + 1 - 1)) with n in Hv, Hstep by lia.
  assert (Hlast : d2 !! n = Some c).
  { subst d2 n. rewrite lookup_app_r by lia. rewrite Nat.sub_diag. reflexivity. }
  assert (Htake : take n d2 = content) by (subst d2 n; apply take_app_length).
  rewrite Hlast in Hv. injection Hv as <-.
  rewrite Htake in Hstep. fold c in Hstep. rewrite Z.eqb_refl in Hstep.
  cbn [feed]. rewrite Hstep. cbn [bind snd fst List.length replicate app].
  f_equal. f_equal.
  rewrite replicate_add. cbn [replicate]. rewrite <- app_assoc. cbn [app].
  apply replicate_cons_app.
Qed.

(** X13. Round trip into any idle decoder. When the CRC-8 of command and
    payload is neither [END] nor [ESC], the bytes of an encode session fed
    to a packet in state [IDLE] (fresh, or left there by an earlier frame)
    with room for command, payload and CRC are answered [NOT_DONE] up to
    the closing [END], which is answered [NONE]; then [command()] is the
    command, [data()] starts with the payload, [crc()] is the CRC-8, and
    [length()] is the number of payload bytes when that is below 256. The
    capacities of the two packets need not be the same. *)
Theorem roundtrip_into_idle_decoder (fuel : nat) (maxData : Z)
    (storage : list Z) (pd0 : Packet) (cmd : Z) (payload : list Z) :
  Z.of_nat (List.length storage) = maxData ->
  Z.of_nat (List.length payload) + 1 <= maxData ->
  maxData + 1 < 2 ^ 64 ->
  (2 * List.length payload + 5 <= fuel)%nat ->
  m_state pd0 = IDLE ->
  Z.of_nat (List.length payload) + 2 <= m_maxData pd0 ->
  m_maxData pd0 <= Z.of_nat (List.length (m_data pd0)) ->
  m_maxData pd0 < 2 ^ 64 ->
  Crc8_bytes 0 (cmd :: payload) <> END ->
  Crc8_bytes 0 (cmd :: payload) <> ESC ->
  exists (encoded : list Z) (pe pd : Packet) (k : nat),
    PacketEncodeTest fuel maxData storage cmd payload = Ret (encoded, pe)
    /\ feed pd0 encoded = Ret (replicate k NOT_DONE ++ [NONE], pd)
    /\ parseData pd0 encoded = Ret (NONE, pd)
    /\ m_state pd = IDLE
    /\ command pd = Ret cmd
    /\ take (List.length payload) (data pd) = payload
    /\ crc pd = Ret (Crc8_bytes 0 (cmd :: payload))
    /\ (Z.of_nat (List.length payload) < 256 ->
        packet.length pd = Z.of_nat (List.length payload)).
Proof.
  intros Hlen Hroom Hsz Hfuel Hst Hroom' Hmax' Hsz' HcE HcS.
  destruct (PacketEncodeTest_frame fuel maxData storage cmd payload)
    as (pe & Henc); try assumption.
  pose proof (feed_frame pd0 (cmd :: payload) Hst) as Hfeed.
  cbn [List.length] in Hfeed.
  specialize (Hfeed ltac:(lia) ltac:(lia) Hmax' Hsz' HcE HcS).
  set (c := Crc8_bytes 0 (cmd :: payload)) in *.
  set (n := List.length payload) in *.
  eexists _, pe, _, _. split; [exact Henc|]. split; [exact Hfeed|].
  split; [exact (parseData_of_feed _ _ _ _ _ Hfeed)|].
  split; [reflexivity|]. split; [reflexivity|].
  split; [unfold data; cbn [m_data app drop]; subst n; apply take_app_length|].
  split.
  - unfold crc. cbn [m_dataLen m_data].
    destruct (Z.leb_spec 2 (Z.of_nat (S n) + 1)) as [_|]; [|lia].
    rewrite size_t_small by lia. unfold load.
    rewrite bool_decide_true by lia.
    replace (Z.to_nat (Z.of_nat (S n) + 1 - 1))
      with (List.length (cmd :: payload) + 0)%nat
      by (cbn [List.length]; subst n; lia).
    rewrite lookup_app_r by lia.
    replace (_ + 0 - _)%nat with 0%nat by lia. reflexivity.
  - intros Hsmall. unfold packet.length. cbn [m_dataLen].
    rewrite uint8_t_size_t.
    replace (Z.of_nat (S n) + 1 - 2) with (Z.of_nat n) by lia.
    apply Z.mod_small. lia.
Qed.

Lemma roundtrip_into_idle_decoder_witness :
  exists (encoded : list Z) (pe pd : Packet) (k : nat),
    PacketEncodeTest 16 4 [0; 0; 0; 0] 0xC0 [0xDB] = Ret (encoded, pe)
    /\ feed (mkPacket 8 5 (replicate 8 0xFF) IDLE 3) encoded
       = Ret (replicate k NOT_DONE ++ [NONE], pd)
    /\ command pd = Ret 0xC0
    /\ take 1 (data pd) = [0xDB].
Proof.
  destruct (roundtrip_into_idle_decoder 16 4 [0; 0; 0; 0]
              (mkPacket 8 5 (replicate 8 0xFF) IDLE 3) 0xC0 [0xDB]
              ltac:(by_eval) ltac:(by_eval) ltac:(by_eval) ltac:(by_eval)
              ltac:(by_eval) ltac:(by_eval) ltac:(by_eval) ltac:(by_eval)
              ltac:(by_eval) ltac:(by_eval))
    as (encoded & pe & pd & k & H1 & H2 & _ & _ & H3 & H4 & _).
  exists encoded, pe, pd, k. repeat split; assumption.
Defined.

(** X14. Two frames in a row, each with its own opening and closing [END]
    and a CRC-8 that is neither [END] nor [ESC], are decoded one after the
    other by the same packet: [NONE] at the closing [END] of each,
    [NOT_DONE] everywhere else, and at the end the packet holds the content
    and CRC-8 of the second frame from index 0 on. *)
Theorem two_frames_in_a_row (p : Packet) (c1 c2 : list Z) :
  m_state p = IDLE ->
  (1 <= List.length c1)%nat -> (1 <= List.length c2)%nat ->
  Z.of_nat (List.length c1) + 1 <= m_maxData p ->
  Z.of_nat (List.length c2) + 1 <= m_maxData p ->
  m_maxData p <= Z.of_nat (List.length (m_data p)) ->
  m_maxData p < 2 ^ 64 ->
  Crc8_bytes 0 c1 <> END -> Crc8_bytes 0 c1 <> ESC ->
  Crc8_bytes 0 c2 <> END -> Crc8_bytes 0 c2 <> ESC ->
  exists p2,
    feed p (frame c1 ++ frame c2)
    = Ret ((replicate (List.length (escape c1) + 2) NOT_DONE ++ [NONE])
             ++ replicate (List.length (escape c2) + 2) NOT_DONE ++ [NONE],
           p2)
    /\ m_state p2 = IDLE
    /\ m_dataLen p2 = Z.of_nat (List.length c2) + 1
    /\ take (S (List.length c2)) (m_data p2) = c2 ++ [Crc8_bytes 0 c2].
Proof.
  intros Hst Hn1 Hn2 Hr1 Hr2 Hmax Hsz H1E H1S H2E H2S.
  rewrite feed_app.
  rewrite (feed_frame p c1) by assumption. cbn [bind snd fst].
  rewrite feed_frame; cbn [m_state m_maxData m_data m_encodeIdx];
    try assumption; try reflexivity.
  - cbn [bind snd fst]. eexists. split; [reflexivity|].
    cbn [m_state m_dataLen m_data]. split; [reflexivity|].
    split; [reflexivity|].
    rewrite cons_middle, app_assoc.
    apply take_app_length'. rewrite length_app. cbn [List.length]. lia.
  - rewrite length_app. cbn [List.length]. rewrite length_drop. lia.
Qed.

Lemma two_frames_in_a_row_witness :
  exists p2,
    feed (Packet_new 4 [0; 0; 0; 0]) (frame [0x01; 0x02] ++ frame [0xC0])
    = Ret ((replicate (List.length (escape [0x01; 0x02]) + 2) NOT_DONE ++ [NONE])
             ++ replicate (List.length (escape [0xC0]) + 2) NOT_DONE ++ [NONE],
           p2)
    /\ m_dataLen p2 = Z.of_nat (List.length [0xC0]) + 1.
Proof.
  destruct (two_frames_in_a_row (Packet_new 4 [0; 0; 0; 0]) [0x01; 0x02] [0xC0]
              ltac:(by_eval) ltac:(by_eval) ltac:(by_eval) ltac:(by_eval)
              ltac:(by_eval) ltac:(by_eval) ltac:(by_eval) ltac:(by_eval)
              ltac:(by_eval) ltac:(by_eval) ltac:(by_eval))
    as (p2 & H & _ & Hl & _).
  exists p2. split; assumption.
Defined.

(** ** What [NONE] and [CRC] say about the stored bytes *)

Lemma parseData_last_call (bytes : list Z) :
  forall (p p' : Packet) (e : Error),
    Inv p -> parseData p bytes = Ret (e, p') -> e <> NOT_DONE ->
    exists (p1 : Packet) (b : Z),
      Inv p1 /\ m_maxData p1 = m_maxData p
      /\ processByte p1 b = Ret (e, p').
Proof.
  induction bytes as [|b bs IH]; intros p p' e Hp H He.
  - injection H as <- <-. contradiction.
  - cbn [parseData] in H.
    destruct (processByte_Inv p b Hp) as (e1 & p1 & Hstep & Hp1 & Hmax1).
    rewrite Hstep in H. cbn [bind] in H.
    destruct e1;
      try (injection H as <- <-; exists p, b;
           split; [exact Hp | split; [reflexivity | exact Hstep]]).
    destruct (IH p1 p' e Hp1 H He) as (p2 & b2 & Hp2 & Hmax2 & Hlast).
    exists p2, b2. split; [exact Hp2 | split; [congruence | exact Hlast]].
Qed.

(** X15. A decode session on a well-formed packet ends with [NONE] or with
    [CRC] only when at least two bytes are stored, within the capacity;
    [crc()] then returns the last stored byte, and the result is [NONE]
    exactly when that byte is the CRC-8 of the bytes stored before it. So a
    packet with fewer than two bytes of storage never completes a frame. *)
Theorem NONE_iff_checksum_holds (bytes : list Z) (p p' : Packet) (e : Error) :
  Inv p -> m_maxData p < 2 ^ 64 ->
  parseData p bytes = Ret (e, p') ->
  e = NONE \/ e = CRC ->
  2 <= m_dataLen p' <= m_maxData p
  /\ exists c,
       crc p' = Ret c
       /\ (e = NONE
           <-> c = Crc8_bytes 0 (take (Z.to_nat (m_dataLen p' - 1)) (m_data p'))).
Proof.
  intros Hp Hsz H He.
  destruct (parseData_last_call bytes p p' e Hp H) as (p1 & b & Hp1 & Hmax & Hlast);
    [destruct He as [-> | ->]; discriminate|].
  destruct Hp1 as (Hlen1 & Hdl1 & _).
  assert (Hst : m_state p1 = PACKET /\ b = END /\ m_dataLen p' = m_dataLen p1
                /\ m_data p' = m_data p1).
  { apply processByte_result in Hlast.
    destruct He as [-> | ->].
    - destruct Hlast as (? & ? & ->). repeat split; assumption.
    - destruct Hlast as (? & ? & ? & ? & ->). repeat split; assumption. }
  destruct Hst as (Hst & -> & Hdl' & Hd').
  assert (H2 : 2 <= m_dataLen p1).
  { unfold processByte in Hlast. rewrite Hst, Z.eqb_refl in Hlast.
    destruct (Z.eqb_spec (m_dataLen p1) 0);
      [destruct He as [-> | ->]; discriminate Hlast|].
    destruct (Z.eqb_spec (m_dataLen p1) 1);
      [destruct He as [-> | ->]; discriminate Hlast|].
    lia. }
  destruct (processByte_END p1 Hst ltac:(lia) ltac:(lia)) as (v & Hv & Hstep).
  rewrite Hstep in Hlast.
  split; [lia|]. exists v. split.
  - unfold crc. rewrite Hdl', Hd'.
    destruct (Z.leb_spec 2 (m_dataLen p1)) as [_|]; [|lia].
    rewrite size_t_small by lia. unfold load.
    rewrite bool_decide_true by lia. rewrite Hv. reflexivity.
  - rewrite Hdl', Hd'.
    destruct (Z.eqb_spec v
                (Crc8_bytes 0 (take (Z.to_nat (m_dataLen p1 - 1)) (m_data p1))))
      as [Heq|Hne]; injection Hlast as <- _.
    + split; [intros _; exact Heq | reflexivity].
    + split; [discriminate | intros Heq; contradiction].
Qed.

Lemma NONE_iff_checksum_holds_witness :
  parseData (Packet_new 4 [0; 0; 0; 0]) [0xC0; 0x01; 0x07; 0xC0]
  = Ret (NONE, mkPacket 4 2 [0x01; 0x07; 0; 0] IDLE 0)
  /\ 2 <= 2 <= 4.
Proof.
  assert (H : parseData (Packet_new 4 [0; 0; 0; 0]) [0xC0; 0x01; 0x07; 0xC0]
              = Ret (NONE, mkPacket 4 2 [0x01; 0x07; 0; 0] IDLE 0))
    by (vm_compute; reflexivity).
  split; [exact H|].
  apply (NONE_iff_checksum_holds _ _ _ _ (Inv_new 4 [0; 0; 0; 0] eq_refl)
           ltac:(by_eval) H (or_introl eq_refl)).
Defined.

(** ** The state shared by decoder and encoder *)

(** X16. [encodeStart] also restarts the decoder. Whatever state and length
    a packet was left with (after an error, say), [encodeStart] followed by
    the bytes of a frame with room in the storage and a CRC-8 that is
    neither [END] nor [ESC] is answered [NOT_DONE] up to the closing [END]
    and [NONE] there, with the content and its CRC-8 stored from index 0. *)
Theorem encodeStart_restarts_decoder (p : Packet) (content : list Z) :
  (1 <= List.length content)%nat ->
  Z.of_nat (List.length content) + 1 <= m_maxData p ->
  m_maxData p <= Z.of_nat (List.length (m_data p)) ->
  m_maxData p < 2 ^ 64 ->
  Crc8_bytes 0 content <> END ->
  Crc8_bytes 0 content <> ESC ->
  exists pd,
    feed (encodeStart p) (frame content)
    = Ret (replicate (List.length (escape content) + 2) NOT_DONE ++ [NONE], pd)
    /\ m_dataLen pd = Z.of_nat (List.length content) + 1
    /\ take (S (List.length content)) (m_data pd)
       = content ++ [Crc8_bytes 0 content].
Proof.
  intros Hne Hroom Hmax Hsz HcE HcS.
  eexists. split; [apply feed_frame; auto|].
  cbn [m_dataLen m_data]. split; [reflexivity|].
  rewrite cons_middle, app_assoc.
  apply take_app_length'. rewrite length_app. cbn [List.length]. lia.
Qed.

Lemma encodeStart_restarts_decoder_witness :
  exists pd,
    feed (encodeStart (mkPacket 4 2 [0x01; 0x08; 0; 0] PACKET 0))
      (frame [0x01])
    = Ret (replicate (List.length (escape [0x01]) + 2) NOT_DONE ++ [NONE], pd)
    /\ m_dataLen pd = Z.of_nat (List.length [0x01]) + 1.
Proof.
  destruct (encodeStart_restarts_decoder
              (mkPacket 4 2 [0x01; 0x08; 0; 0] PACKET 0) [0x01]
              ltac:(by_eval) ltac:(by_eval) ltac:(by_eval) ltac:(by_eval)
              ltac:(by_eval) ltac:(by_eval))
    as (pd & H & Hl & _).
  exists pd. split; assumption.
Defined.

(** X17. An encode session gives up whatever frame the same packet was
    receiving: it ends in state [IDLE], so the next [processByte] starts
    over at length 0. *)
Theorem encode_abandons_reception (fuel : nat) (p : Packet) (byte : Z) :
  0 <= m_dataLen p <= Z.of_nat (List.length (m_data p)) ->
  m_dataLen p + 1 < 2 ^ 64 ->
  (2 * Z.to_nat (m_dataLen p) + 3 <= fuel)%nat ->
  exists (encoded : list Z) (pe : Packet),
    encode fuel p = Ret (encoded, pe)
    /\ processByte pe byte
       = Ret (NOT_DONE,
              mkPacket (m_maxData p) 0 (m_data p) PACKET (m_dataLen p + 1)).
Proof.
  intros Hlen Hsz Hfuel. destruct p as [mx dl d st ix].
  cbn [m_maxData m_dataLen m_data] in *.
  eexists _, _. split; [apply (encode_frame mx dl d Hlen Hsz st ix fuel Hfuel)|].
  reflexivity.
Qed.

Lemma encode_abandons_reception_witness :
  exists (encoded : list Z) (pe : Packet),
    encode 9 (mkPacket 4 2 [0x01; 0x02; 0; 0] ESCAPE 0) = Ret (encoded, pe)
    /\ processByte pe 0x55
       = Ret (NOT_DONE, mkPacket 4 0 [0x01; 0x02; 0; 0] PACKET (2 + 1)).
Proof.
  apply (encode_abandons_reception 9 (mkPacket 4 2 [0x01; 0x02; 0; 0] ESCAPE 0)
           0x55 ltac:(by_eval) ltac:(by_eval) ltac:(by_eval)).
Defined.

(** ** The bus *)

Section Bus.

Context {Port : Type} `{bus.IPort Port}.



End Bus.







Lemma poll_no_data (k : nat) (out : list Z) (p : Packet) :
  poll k (bus.mkIBus (mkPipe [] out) p)
  = Ret (replicate k NOT_DONE, bus.mkIBus (mkPipe [] out) p).
Proof.
  induction k as [|k IH]; [reflexivity|].
  cbn [poll]. unfold bus.processByte at 1.
  cbn [bus.readByte Pipe_port bus.m_port incoming bus.m_rcvPacket bind snd fst].
  rewrite IH. reflexivity.
Qed.

(** X20. Polling the bus runs the bytes the port delivers through
    [Packet::processByte], one per call and in order, with the same results
    and the same packet at the end; a call that finds no byte returns
    [NOT_DONE] and leaves the packet untouched. So [NOT_DONE] from
    [IBus::processByte] does not tell whether a byte was consumed. *)
Theorem poll_drains_port (bytes : list Z) (k : nat) (out : list Z) :
  forall p : Packet,
    poll (List.length bytes + k) (bus.mkIBus (mkPipe bytes out) p)
    = do r <- feed p bytes;
      Ret (fst r ++ replicate k NOT_DONE,
           bus.mkIBus (mkPipe [] out) (snd r)).
Proof.
  induction bytes as [|b bs IH]; intros p.
  - cbn [List.length Nat.add feed bind fst snd app]. apply poll_no_data.
  - cbn [List.length Nat.add poll feed]. unfold bus.processByte at 1.
    cbn [bus.readByte Pipe_port bus.m_port incoming outgoing bus.m_rcvPacket].
    destruct (processByte p b) as [[e p1]| | |]; try reflexivity.
    cbn [bind snd fst]. rewrite IH.
    destruct (feed p1 bs) as [[es p2]| | |]; reflexivity.
Qed.





(** ** A full buffer *)

(** X22. Once the length has reached the capacity, in state [PACKET], every
    byte other than [END] is answered [TOO_MUCH_DATA] and nothing changes,
    however many bytes follow: the bytes stored so far stay as they are and
    the decoder stays where it is. *)
Theorem overflow_is_sticky (bytes : list Z) (p : Packet) :
  m_state p = PACKET ->
  m_maxData p <= m_dataLen p ->
  Forall (fun b => b <> END) bytes ->
  feed p bytes = Ret (replicate (List.length bytes) TOO_MUCH_DATA, p).
Proof.
  intros Hst Hfull Hb. induction Hb as [|b bs Hne _ IH]; [reflexivity|].
  cbn [feed]. rewrite (processByte_full p b Hst Hfull Hne).
  cbn [bind snd fst]. rewrite IH. reflexivity.
Qed.

Lemma overflow_is_sticky_witness :
  feed (mkPacket 2 2 [0x01; 0x02] PACKET 0) [0x03; 0xDB; 0x04]
  = Ret (replicate (List.length [0x03; 0xDB; 0x04]) TOO_MUCH_DATA,
         mkPacket 2 2 [0x01; 0x02] PACKET 0).
Proof.
  apply (overflow_is_sticky [0x03; 0xDB; 0x04]
           (mkPacket 2 2 [0x01; 0x02] PACKET 0) eq_refl ltac:(by_eval)).
  repeat constructor; discriminate.
Defined.
